(** * Context-engineering examples: prompt resolver and knowledge orchestrator

    A shallow embedding of
    - [src/system_prompt/context_middleware.py] ([context_aware_prompt]) and
    - [src/multi_agent_example/knowledge_agent.py] ([knowledge_orchestrator]),
    together with the properties their specification states about them.

    Python text is modelled by [string] (a sequence of characters), a
    [dict] by a [gmap], a raised exception by the [Raises] outcome of a
    small state-and-exception monad whose state is the part of the world
    the function can touch. *)

From Stdlib Require Import String Ascii List Arith Lia.
From stdpp Require Import base option list strings pretty gmap.

Local Open Scope string_scope.

(** ** Python values, exceptions and outcomes *)

(** The newline character and the one-character string ["\n"]. *)
Definition nl_char : ascii := Ascii.ascii_of_nat 10.
Definition NL : string := String nl_char EmptyString.

(** [l.append(x)] on a Python list, as a new list. *)
Definition list_append {A} (l : list A) (x : A) : list A := (l ++ [x])%list.

(** [sep.join(parts)]. *)
Definition join (sep : string) (parts : list string) : string :=
  String.concat sep parts.

(** [sub in s] on text. *)
Fixpoint contains (sub s : string) : bool :=
  String.prefix sub s ||
  match s with
  | EmptyString => false
  | String _ rest => contains sub rest
  end.

(** [s.count(sub)] with overlapping occurrences counted too: the number of
    positions of [s] at which [sub] starts. *)
Fixpoint occurrences (sub s : string) : nat :=
  (if String.prefix sub s then 1 else 0) +
  match s with
  | EmptyString => 0
  | String _ rest => occurrences sub rest
  end.

(** Whether a non-empty end of [p] is a beginning of [s]. *)
Fixpoint overlaps_start (p s : string) : bool :=
  match p with
  | EmptyString => false
  | String _ p' => String.prefix p s || overlaps_start p' s
  end.

(** A raised exception object.  [is_Exception] is [isinstance(e, Exception)]:
    it is [false] for [KeyboardInterrupt], [SystemExit] and the other classes
    that derive from [BaseException] only; [exc_str] is [str(e)]. *)
Record PyExc := mkExc { is_Exception : bool; exc_str : string }.

Inductive outcome (A : Type) : Type :=
| Returns (a : A)
| Raises (e : PyExc).
Arguments Returns {A} a.
Arguments Raises {A} e.

(** The values a stored preference field can hold, as far as [str.format]
    is concerned. *)
Inductive pyval :=
| PyStr (s : string)
| PyInt (z : Z)
| PyBool (b : bool)
| PyNone.

(** [format(v)] with an empty format spec, which is what an f-string
    field [{v}] inserts. *)
Definition py_format (v : pyval) : string :=
  match v with
  | PyStr s => s
  | PyInt z => pretty z
  | PyBool true => "True"
  | PyBool false => "False"
  | PyNone => "None"
  end.

(** [d.get(key, default)] on a dict. *)
Definition dict_get {V} (d : gmap string V) (key : string) (default : V) : V :=
  match d !! key with
  | Some v => v
  | None => default
  end.

(** ** The dynamic system prompt of [context_middleware.py] *)
Module ContextMiddleware.

(** [@dataclass class Context: user_id: str] *)
Record Context := { user_id : string }.

(** What [store.get] hands back when there is an entry: an object with a
    [value] mapping.  [item_bool] is the result of the truth test
    [bool(item)]; it is [true] for langgraph's [Item], which defines
    neither [__bool__] nor [__len__]. *)
Record Item := { item_bool : bool; value : gmap string pyval }.

(** The store interface the resolver relies on: one method,
    [get(namespace, key)], returning an item or [None], or raising. *)
Class BaseStore (S : Type) :=
  store_get : S → list string → string → outcome (option Item).

(** [InMemoryStore]: a dictionary from (namespace, key) to items; a missing
    entry is [None], and a lookup never raises. *)
Record InMemoryStore := { data : gmap (list string * string) Item }.

#[export] Instance InMemoryStore_get : BaseStore InMemoryStore :=
  λ s namespace key, Returns (data s !! (namespace, key)).

(** A store whose backend cannot be reached: every lookup raises. *)
Record UnreachableStore := { failure : PyExc }.

#[export] Instance UnreachableStore_get : BaseStore UnreachableStore :=
  λ s _ _, Raises (failure s).

Record Message := { content : string }.

Section Resolver.
Context {S : Type} `{BaseStore S}.

Record Runtime := { context : Context; store : S }.
Record ModelRequest := { messages : list Message; runtime : Runtime }.

(** Everything the callback can reach: the request object it is handed
    (with the runtime context and the store behind it), the standard
    output it prints to, and a log of the calls made on the store
    (namespace and key of each [store.get]). *)
Record World := {
  request : ModelRequest;
  stdout : list string;
  store_calls : list (list string * string)
}.

(** State-and-exception monad over [World]. *)
Definition M (A : Type) : Type := World → outcome A * World.

Definition ret {A} (a : A) : M A := λ w, (Returns a, w).

Definition bind {A B} (m : M A) (k : A → M B) : M B :=
  λ w, match m w with
       | (Returns a, w') => k a w'
       | (Raises e, w') => (Raises e, w')
       end.

Notation "'do' x <- m ; k" := (bind m (λ x, k))
  (at level 10, x name, m at level 100, k at level 200,
   format "'[v' 'do'  x  <-  m ; '/' k ']'").
Notation "'run' m ; k" := (bind m (λ _, k))
  (at level 10, m at level 100, k at level 200,
   format "'[v' 'run'  m ; '/' k ']'").

(** Reading an attribute of the request leaves the world as it is. *)
Definition read {A} (f : ModelRequest → A) : M A :=
  λ w, (Returns (f (request w)), w).

(** [print(line)] appends one line to the standard output. *)
Definition print (line : string) : M unit :=
  λ w, (Returns tt,
        {| request := request w;
           stdout := list_append (stdout w) line;
           store_calls := store_calls w |}).

(** [store.get(namespace, key)]: the call is logged, its outcome is
    returned or raised, and nothing else is written. *)
Definition get (st : S) (namespace : list string) (key : string)
  : M (option Item) :=
  λ w, (store_get st namespace key,
        {| request := request w;
           stdout := stdout w;
           store_calls := list_append (store_calls w) (namespace, key) |}).

(** The three kinds of segment. *)
Definition BASE : string := "You are a helpful assistant.".
Definition LONG : string := "This is a long conversation - be extra concise.".
Definition style_segment (style : string) : string :=
  "User prefers " +:+ style +:+ " responses.".

(** The truth test [if user_prefs:]. *)
Definition truthy (user_prefs : option Item) : bool :=
  match user_prefs with
  | Some item => item_bool item
  | None => false
  end.

(** Lines 20-23, "STATE CONTEXT": the conversation-length step, given
    the segments collected so far.  [prompt_parts.append(x)] rebinds
    [prompt_parts] to [list_append prompt_parts x]. *)
Definition state_context (message_count : nat) (prompt_parts : list string)
  : M (list string) :=
  if (10 <? message_count)%nat then
    let prompt_parts := list_append prompt_parts LONG in
    run print " State Context: Long conversation detected";
    ret prompt_parts
  else ret prompt_parts.

(** Lines 25-34, "STORE CONTEXT": the preference step. *)
Definition store_context (user_id : string) (prompt_parts : list string)
  : M (list string) :=
  do store <- read (λ request, store (runtime request));
  do user_prefs <- get store ["preferences"] user_id;
  if truthy user_prefs then
    match user_prefs with
    | Some item =>
        let style :=
          dict_get (value item) "communication_style" (PyStr "balanced") in
        let prompt_parts :=
          list_append prompt_parts (style_segment (py_format style)) in
        run print ("Store Context: Applied " +:+ py_format style +:+
                   " preference");
        ret prompt_parts
    | None => ret prompt_parts
    end
  else
    run print "Store Context: No user preferences found";
    ret prompt_parts.

(** Lines 12-34: the body of [context_aware_prompt] up to the point
    where [prompt_parts] is complete. *)
Definition collect_prompt_parts : M (list string) :=
  do user_id <- read (λ request, user_id (context (runtime request)));
  do message_count <- read (λ request, length (messages request));
  run print (" Context Middleware: user_id=" +:+ user_id +:+
             ", messages=" +:+ pretty message_count);
  let prompt_parts := [BASE] in
  do prompt_parts <- state_context message_count prompt_parts;
  do prompt_parts <- store_context user_id prompt_parts;
  ret prompt_parts.

(** [context_aware_prompt(request)]: lines 10-40 of the source. *)
Definition context_aware_prompt : M string :=
  do prompt_parts <- collect_prompt_parts;
  let final_prompt := join NL prompt_parts in
  run print ("Final prompt: " +:+ final_prompt);
  ret final_prompt.

(** *** Inputs of a call, read off the world *)

Definition caller_id (w : World) : string :=
  user_id (context (runtime (request w))).

Definition message_count (w : World) : nat :=
  length (messages (request w)).

(** What the preference lookup of this call yields. *)
Definition preference_lookup (w : World) : outcome (option Item) :=
  store_get (store (runtime (request w))) ["preferences"] (caller_id w).

(** *** The segments as the specification words them *)

(** The style named by a record: its [communication_style] field, or
    ["balanced"] when the field is missing. *)
Definition style_of (item : Item) : string :=
  py_format (dict_get (value item) "communication_style" (PyStr "balanced")).

Definition long_part (message_count : nat) : list string :=
  if (10 <? message_count)%nat then [LONG] else [].

Definition style_part (user_prefs : option Item) : list string :=
  match user_prefs with
  | Some item => if item_bool item then [style_segment (style_of item)] else []
  | None => []
  end.

(** Base segment, then the long-conversation segment if any, then the
    style segment if any. *)
Definition spec_segments (message_count : nat) (user_prefs : option Item)
  : list string :=
  ([BASE] ++ long_part message_count ++ style_part user_prefs)%list.

(** The outcome of a call as the specification words it: the lookup
    failure if the lookup fails, else the segments joined by newlines. *)
Definition resolved_prompt (message_count : nat)
    (lookup : outcome (option Item)) : outcome string :=
  match lookup with
  | Returns user_prefs => Returns (join NL (spec_segments message_count user_prefs))
  | Raises e => Raises e
  end.

(** A segment of the shape ["User prefers {style} responses."]. *)
Definition is_style_segment (s : string) : Prop :=
  ∃ style, s = style_segment style.

(** The text of [s] before its first newline: [s.split("\n")[0]]. *)
Fixpoint first_line (s : string) : string :=
  match s with
  | EmptyString => EmptyString
  | String c rest =>
      if Ascii.eqb c nl_char then EmptyString else String c (first_line rest)
  end.

(** *** The trace a call prints *)

Definition entry_line (w : World) : string :=
  " Context Middleware: user_id=" +:+ caller_id w +:+
  ", messages=" +:+ pretty (message_count w).

Definition state_trace (message_count : nat) : list string :=
  if (10 <? message_count)%nat
  then [" State Context: Long conversation detected"] else [].

Definition store_line (user_prefs : option Item) : string :=
  match user_prefs with
  | Some item =>
      if item_bool item
      then "Store Context: Applied " +:+ style_of item +:+ " preference"
      else "Store Context: No user preferences found"
  | None => "Store Context: No user preferences found"
  end.

(** The world after a call that printed [lines] and looked up
    [(["preferences"], caller_id)] once. *)
Definition after (w : World) (lines : list string) : World :=
  {| request := request w;
     stdout := (stdout w ++ lines)%list;
     store_calls := list_append (store_calls w) (["preferences"], caller_id w) |}.

End Resolver.

End ContextMiddleware.

(** ** The orchestrator of [knowledge_agent.py] *)
Module KnowledgeAgent.

(** [c.lower()] for one character: the letters [A]-[Z] move to [a]-[z],
    every other character stays. *)
Definition lower_char (c : ascii) : ascii :=
  let n := Ascii.nat_of_ascii c in
  if ((65 <=? n) && (n <=? 90))%nat then Ascii.ascii_of_nat (n + 32) else c.

(** [s.lower()]. *)
Fixpoint lower (s : string) : string :=
  match s with
  | EmptyString => EmptyString
  | String c rest => String (lower_char c) (lower rest)
  end.

(** [s[:n]]. *)
Definition take_prefix (n : nat) (s : string) : string := String.substring 0 n s.

(** One retrieved memory: a dict, read through [m['memory']]. *)
Abbreviation memory := (gmap string pyval).

(** What the retrieve action hands back: [None], or a dict whose
    ["results"] entry is a list of memories. *)
Abbreviation retrieved := (option (gmap string (list memory))).

(** The object the model call returns; [result_str] is [str(response)]. *)
Record AgentResult := { result_str : string }.

(** The agent built on lines 52-63, seen through the three calls the
    function makes on it: [.tool.mem0_memory(action="retrieve", ...)],
    the model invocation [knowledge_agent(prompt, user_id=...)] and
    [.tool.mem0_memory(action="store", ...)]. *)
Record Agent := {
  mem0_retrieve : string → string → outcome retrieved;
  invoke : string → string → outcome AgentResult;
  mem0_store : string → string → list (string * string) → outcome unit
}.

(** What the function does to the outside, in order. *)
Inductive event :=
| Printed (line : string)
| MemoryRetrieve (query user_id : string)
| ModelInvoked (prompt user_id : string)
| MemoryStore (content user_id : string) (metadata : list (string * string)).

(** State-and-exception monad over the events so far. *)
Definition M (A : Type) : Type := list event → outcome A * list event.

Definition ret {A} (a : A) : M A := λ t, (Returns a, t).

Definition bind {A B} (m : M A) (k : A → M B) : M B :=
  λ t, match m t with
       | (Returns a, t') => k a t'
       | (Raises e, t') => (Raises e, t')
       end.

Notation "'do' x <- m ; k" := (bind m (λ x, k))
  (at level 10, x name, m at level 100, k at level 200,
   format "'[v' 'do'  x  <-  m ; '/' k ']'").
Notation "'run' m ; k" := (bind m (λ _, k))
  (at level 10, m at level 100, k at level 200,
   format "'[v' 'run'  m ; '/' k ']'").

(** An outside call: the event is recorded, the outcome returned or
    raised. *)
Definition emit {A} (ev : event) (o : outcome A) : M A :=
  λ t, (o, list_append t ev).

Definition print (line : string) : M unit := emit (Printed line) (Returns tt).

(** [raise] of an exception made inside the function. *)
Definition raise {A} (e : PyExc) : M A := λ t, (Raises e, t).

(** [try: body  except Exception as e: handler(e)]: only instances of
    [Exception] are caught, anything else keeps propagating. *)
Definition try_except {A} (body : M A) (handler : PyExc → M A) : M A :=
  λ t, match body t with
       | (Returns a, t') => (Returns a, t')
       | (Raises e, t') =>
           if is_Exception e then handler e t' else (Raises e, t')
       end.

(** [KeyError(key)]; its [str] is the [repr] of the key. *)
Definition KeyError (key : string) : PyExc :=
  {| is_Exception := true; exc_str := "'" +:+ key +:+ "'" |}.

(** [f"- {m['memory']}"] for one memory. *)
Definition memory_line (m : memory) : M string :=
  match m !! "memory" with
  | Some v => ret ("- " +:+ py_format v)
  | None => raise (KeyError "memory")
  end.

(** The generator [f"- {m['memory']}" for m in results], run to its end
    or to its first exception. *)
Fixpoint memory_lines (results : list memory) : M (list string) :=
  match results with
  | [] => ret []
  | m :: rest =>
      do line <- memory_line m;
      do lines <- memory_lines rest;
      ret (line :: lines)
  end.

(** The truth test [past_memories and past_memories.get("results")],
    with the list it leaves when it succeeds. *)
Definition found_results (past_memories : retrieved) : option (list memory) :=
  match past_memories with
  | None => None
  | Some d =>
      if (size d =? 0)%nat then None
      else match d !! "results" with
           | Some (m :: rest) => Some (m :: rest)
           | _ => None
           end
  end.

(** Lines 67-81: the memory context, whatever the retrieval does. *)
Definition retrieve_memory_context (knowledge_agent : Agent)
    (topic user_id : string) : M string :=
  try_except
    (do past_memories <-
       emit (MemoryRetrieve topic user_id)
            (mem0_retrieve knowledge_agent topic user_id);
     match found_results past_memories with
     | Some results =>
         run print ("Found " +:+ pretty (length results) +:+
                    " relevant prior memories.");
         do lines <- memory_lines results;
         ret (join NL lines)
     | None => ret "(No relevant prior memory found.)"
     end)
    (λ e,
       let error_msg := exc_str e in
       if contains "ExpiredTokenException" error_msg
          || contains "expired" (lower error_msg) then
         run print "AWS session token has expired. Please refresh your AWS credentials.";
         ret "(Memory unavailable - AWS credentials expired.)"
       else
         run print ("Error retrieving memory: " +:+ error_msg);
         ret ("(Memory unavailable: " +:+ error_msg +:+ ")")).

(** Lines 84-93: the prompt handed to the orchestrator model. *)
Definition orchestrator_prompt (memory_context topic : string) : string :=
  NL +:+ "    MEMORY CONTEXT:" +:+ NL +:+
  "    " +:+ memory_context +:+ NL +:+
  NL +:+
  "    USER QUERY:" +:+ NL +:+
  "    " +:+ topic +:+ NL +:+
  NL +:+
  "    TASK:" +:+ NL +:+
  "    Decide which specialized agent to use, invoke it, and return a unified, domain-specific response." +:+ NL +:+
  "    ".

(** Lines 101-114: the summary is stored; a failure to store is printed
    and dropped. *)
Definition store_summary (knowledge_agent : Agent)
    (topic user_id timestamp output_text : string) : M unit :=
  try_except
    (run emit (MemoryStore
                 ("Session summary for '" +:+ topic +:+ "' at " +:+ timestamp
                  +:+ ":" +:+ NL +:+ take_prefix 800 output_text)
                 user_id
                 [("agent", "KnowledgeAgent"); ("topic", topic)])
              (mem0_store knowledge_agent
                 ("Session summary for '" +:+ topic +:+ "' at " +:+ timestamp
                  +:+ ":" +:+ NL +:+ take_prefix 800 output_text)
                 user_id
                 [("agent", "KnowledgeAgent"); ("topic", topic)]);
     print "Stored session summary in persistent Mem0 memory.")
    (λ e,
       let error_msg := exc_str e in
       if contains "ExpiredTokenException" error_msg
          || contains "expired" (lower error_msg) then
         print "Could not store session summary - AWS credentials expired."
       else
         print ("Could not store session summary: " +:+ error_msg)).

(** Lines 83-116: the model is invoked on the prompt built around the
    memory context, its answer is stored and returned. *)
Definition invoke_orchestrator (knowledge_agent : Agent)
    (timestamp : string) (topic user_id memory_context : string) : M string :=
  let orchestrator_prompt := orchestrator_prompt memory_context topic in
  run print "Running orchestrator model (Palmyra-X5)...";
  do response <-
    emit (ModelInvoked orchestrator_prompt user_id)
         (invoke knowledge_agent orchestrator_prompt user_id);
  let output_text := result_str response in
  run store_summary knowledge_agent topic user_id timestamp output_text;
  ret output_text.

(** [knowledge_orchestrator(topic, user_id)], lines 47-116, with the agent
    of lines 52-63 and the clock reading of line 100 given. *)
Definition knowledge_orchestrator (knowledge_agent : Agent)
    (timestamp : string) (topic user_id : string) : M string :=
  run print (NL +:+ " [KnowledgeAgent] Coordinating multi-agent reasoning for query: "
             +:+ topic +:+ NL);
  run print "Retrieving prior context from Mem0 memory...";
  do memory_context <- retrieve_memory_context knowledge_agent topic user_id;
  invoke_orchestrator knowledge_agent timestamp topic user_id memory_context.

(** The events of a trace that are model invocations. *)
Definition is_model_invocation (ev : event) : bool :=
  match ev with
  | ModelInvoked _ _ => true
  | _ => false
  end.

End KnowledgeAgent.

(** ** Concrete worlds and agents *)
Module Examples.
Import ContextMiddleware KnowledgeAgent.

(** A request of [n] messages from [uid], over store [st], in a world where
    [out] has been printed already. *)
Definition world_of {S : Type} (uid : string) (n : nat) (st : S)
    (out : list string) : @World S :=
  {| request :=
       {| messages := repeat {| content := "hello" |} n;
          runtime := {| context := {| user_id := uid |}; store := st |} |};
     stdout := out;
     store_calls := [] |}.

(** [store.put(("preferences",), uid, value)] on an in-memory store. *)
Definition put_preferences (uid : string) (item : Item) (st : InMemoryStore)
    : InMemoryStore :=
  {| data := <[ (["preferences"], uid) := item ]> (data st) |}.

Definition empty_store : InMemoryStore := {| data := ∅ |}.

Definition prefers (style : string) : Item :=
  {| item_bool := true; value := {[ "communication_style" := PyStr style ]} |}.

(** A record without the [communication_style] field. *)
Definition no_style_field : Item :=
  {| item_bool := true; value := {[ "theme" := PyStr "dark" ]} |}.

(** A record object whose truth value is false. *)
Definition falsy_record : Item :=
  {| item_bool := false; value := {[ "communication_style" := PyStr "formal" ]} |}.

Definition ConnectionError : PyExc :=
  {| is_Exception := true; exc_str := "store backend unreachable" |}.

Definition KeyboardInterrupt : PyExc :=
  {| is_Exception := false; exc_str := EmptyString |}.

(** Scenario B: 15 messages, no preference record. *)
Definition scenario_B : @World InMemoryStore :=
  world_of "alice" 15 empty_store [].

(** Scenario C: 5 messages, a record asking for formal answers. *)
Definition scenario_C : @World InMemoryStore :=
  world_of "alice" 5 (put_preferences "alice" (prefers "formal") empty_store) [].

(** Scenario D: 11 messages, a record without the style field. *)
Definition scenario_D : @World InMemoryStore :=
  world_of "alice" 11 (put_preferences "alice" no_style_field empty_store) [].

(** Scenario C again, later: other lines have been printed and another
    caller has stored a preference in between. *)
Definition scenario_C_later : @World InMemoryStore :=
  world_of "alice" 5
    (put_preferences "bob" (prefers "concise")
       (put_preferences "alice" (prefers "formal") empty_store))
    ["Final prompt: You are a helpful assistant."].

(** 3 messages, and a record object that is falsy. *)
Definition scenario_falsy : @World InMemoryStore :=
  world_of "alice" 3 (put_preferences "alice" falsy_record empty_store) [].

(** Scenario A: 3 messages, no preference record. *)
Definition scenario_A : @World InMemoryStore :=
  world_of "alice" 3 empty_store ["earlier output"].

(** 3 messages, and a stored style that spells out the long-conversation
    sentence. *)
Definition scenario_echo : @World InMemoryStore :=
  world_of "alice" 3
    (put_preferences "alice" (prefers ContextMiddleware.LONG) empty_store) [].

(** 12 messages, and a store that cannot be reached. *)
Definition scenario_unreachable : @World UnreachableStore :=
  world_of "alice" 12 {| failure := ConnectionError |} [].

(** An agent whose memory tool fails with [e] and whose model answers
    [answer]. *)
Definition agent_with_failing_memory (e : PyExc) (answer : string) : Agent :=
  {| mem0_retrieve := λ _ _, Raises e;
     invoke := λ _ _, Returns {| result_str := answer |};
     mem0_store := λ _ _ _, Returns tt |}.

Definition ExpiredToken : PyExc :=
  {| is_Exception := true;
     exc_str := "An error occurred (ExpiredTokenException): token has Expired" |}.

End Examples.

(** ** The domain assistants of [fin_assistant.py] and [med_assistant.py] *)
Module Assistants.
Import KnowledgeAgent.



End Assistants.

(** ** Reading traces and texts *)
Module Traces.
Import KnowledgeAgent.

(** The kinds of call the functions make on the agent. *)
Inductive call_kind := Retrieve | Invoke | Store.

Definition kind_of (ev : event) : option call_kind :=
  match ev with
  | Printed _ => None
  | MemoryRetrieve _ _ => Some Retrieve
  | ModelInvoked _ _ => Some Invoke
  | MemoryStore _ _ _ => Some Store
  end.

(** The calls of a trace, in order, without the printed lines. *)
Definition calls (t : list event) : list call_kind := omap kind_of t.


(** The text of a retrieved memory: what [m['memory']] formats to. *)
Definition memory_text (m : memory) : string :=
  match m !! "memory" with
  | Some v => py_format v
  | None => EmptyString
  end.

(** [s.split("\n")]: the pieces of [s] between newlines. *)
Fixpoint split_lines (s : string) : list string :=
  match s with
  | EmptyString => [EmptyString]
  | String c rest =>
      if Ascii.eqb c nl_char then EmptyString :: split_lines rest
      else match split_lines rest with
           | line :: lines => String c line :: lines
           | [] => [String c EmptyString]
           end
  end.

(** Whether a text is free of newlines. *)
Fixpoint one_line (s : string) : bool :=
  match s with
  | EmptyString => true
  | String c rest => negb (Ascii.eqb c nl_char) && one_line rest
  end.

End Traces.

(** ** The script at the end of [knowledge_agent.py] *)
Module KnowledgeMain.
Import KnowledgeAgent.

(** Lines 121-123. Characters outside ASCII stand in the texts below as
    their UTF-8 bytes. *)
Definition user_id : string := "Ashley_example_user".
Definition topic1 : string :=
  "Using a 10% discount rate, estimate the present value of $5 million annual cash flows over 5 years.".
Definition topic2 : string :=
  "Using a 10% discount rate, estimate the PV of $5M annual cash flows over 5 years.".

(** Lines 148-149: [for m in ...: print(f"- {m['memory']}")], each line
    printed before the next memory is looked at. *)
Fixpoint print_memories (memories : list memory) : M unit :=
  match memories with
  | [] => ret tt
  | m :: rest =>
      match m !! "memory" with
      | Some v =>
          run print ("- " +:+ py_format v);
          print_memories rest
      | None => raise (KeyError "memory")
      end
  end.

(** Lines 136-151: what is stored after the first run is retrieved through
    a second agent, and up to three memories are shown. *)
Definition check_stored (check_agent : Agent) : M unit :=
  run print (NL +:+ "[CHECK] Retrieving stored session memories...");
  do stored <-
    emit (MemoryRetrieve topic1 user_id)
         (mem0_retrieve check_agent topic1 user_id);
  match found_results stored with
  | Some results =>
      run print ("Found " +:+ pretty (length results) +:+
                 " memories stored for '" +:+ user_id +:+ "':");
      print_memories (take 3 results)
  | None => print "No stored memories found yet — check Mem0 setup."
  end.

(** Lines 129-157, the body of the [try]: a first run, the check, a second
    run with a similar query. Each run builds its own agent and reads the
    clock. *)
Definition two_runs (agent_1 check_agent agent_2 : Agent)
    (timestamp_1 timestamp_2 : string) : M unit :=
  run print "[RUN 1] Initial collaboration...";
  do response_1 <- knowledge_orchestrator agent_1 timestamp_1 topic1 user_id;
  run print (NL +:+ "=== FINAL SYNTHESIS (RUN 1) ===" +:+ NL);
  run print response_1;
  run check_stored check_agent;
  run print (NL +:+ "[RUN 2] Re-running with similar query...");
  do response_2 <- knowledge_orchestrator agent_2 timestamp_2 topic2 user_id;
  run print (NL +:+ "=== FINAL SYNTHESIS (RUN 2) ===" +:+ NL);
  print response_2.

(** What the script has printed when the first run starts (lines 119,
    125, 126 and 130). *)
Definition opening : list event :=
  [Printed (NL +:+ "📁 Knowledge Agent - Multi-Agent System 📁" +:+ NL);
   Printed ("Running multi-agent collaboration for topic: " +:+ topic1);
   Printed ("User ID: " +:+ user_id +:+ NL);
   Printed "[RUN 1] Initial collaboration..."].

(** The line of the handler on line 160. *)
Definition error_line (e : PyExc) : event :=
  Printed (NL +:+ " Error during multi-agent collaboration: " +:+ exc_str e).

(** Lines 118-160, the script run as [__main__]. *)
Definition main (agent_1 check_agent agent_2 : Agent)
    (timestamp_1 timestamp_2 : string) : M unit :=
  run print (NL +:+ "📁 Knowledge Agent - Multi-Agent System 📁" +:+ NL);
  run print ("Running multi-agent collaboration for topic: " +:+ topic1);
  run print ("User ID: " +:+ user_id +:+ NL);
  try_except
    (two_runs agent_1 check_agent agent_2 timestamp_1 timestamp_2)
    (λ e, print (NL +:+ " Error during multi-agent collaboration: "
                 +:+ exc_str e)).

End KnowledgeMain.

(** ** Concrete agents and memories *)
Module AgentExamples.
Import KnowledgeAgent.

(** An agent given by what its three calls do, whatever they are asked. *)
Definition agent_of (retrieval : outcome retrieved)
    (answer : outcome AgentResult) (storing : outcome unit) : Agent :=
  {| mem0_retrieve := λ _ _, retrieval;
     invoke := λ _ _, answer;
     mem0_store := λ _ _ _, storing |}.

Definition remembered (text : string) : memory :=
  {[ "memory" := PyStr text ]}.

(** A memory that lacks the ["memory"] field. *)
Definition malformed : memory := {[ "id" := PyInt 7 ]}.

Definition with_results (results : list memory) : retrieved :=
  Some {[ "results" := results ]}.

Definition two_memories : list memory :=
  [remembered "prefers short answers"; remembered "works in finance"].

(** Four memories, the last of them malformed. *)
Definition four_memories : list memory :=
  [remembered "a"; remembered "b"; remembered "c"; malformed].

(** Three memories, the second of them malformed. *)
Definition broken_memories : list memory :=
  [remembered "a"; malformed; remembered "c"].

Definition answered (text : string) : outcome AgentResult :=
  Returns {| result_str := text |}.

Definition Timeout : PyExc :=
  {| is_Exception := true; exc_str := "model timed out" |}.

Definition Interrupt : PyExc :=
  {| is_Exception := false; exc_str := EmptyString |}.

Definition TokenEXPIRED : PyExc :=
  {| is_Exception := true; exc_str := "Security token EXPIRED" |}.

End AgentExamples.

(** ** Properties of the dynamic system prompt *)
Module ContextMiddlewareSpec.
Import ContextMiddleware.

Section Resolver.
Context {S : Type} `{BaseStore S}.

Local Abbreviation World := (@World S).

(** The segment list at the end of the collecting part, the trace it
    prints and the lookup it makes, for every outcome of the lookup. *)
Lemma collect_prompt_parts_run (w : World) :
  collect_prompt_parts w =
  match preference_lookup w with
  | Returns user_prefs =>
      (Returns (spec_segments (message_count w) user_prefs),
       after w ([entry_line w] ++ state_trace (message_count w)
                ++ [store_line user_prefs]))
  | Raises e =>
      (Raises e, after w ([entry_line w] ++ state_trace (message_count w)))
  end.
Proof.
  destruct w as [[msgs [[uid] st]] out calls].
  unfold collect_prompt_parts, preference_lookup, spec_segments, after,
    entry_line, state_trace, long_part, message_count, caller_id,
    state_context, store_context, bind, read, print, get, ret, list_append;
    cbn [request runtime context user_id store messages stdout store_calls].
  destruct (10 <? length msgs)%nat;
    cbn [request runtime context user_id store messages stdout store_calls];
    destruct (store_get st ["preferences"] uid) as [[[[] v]|]|e];
    cbn [truthy item_bool value request runtime context user_id store messages
         stdout store_calls style_part store_line];
    unfold style_of; rewrite <- ?app_assoc; reflexivity.
Qed.

(** The whole call: what it returns, prints and looks up. *)
Lemma context_aware_prompt_run (w : World) :
  context_aware_prompt w =
  match preference_lookup w with
  | Returns user_prefs =>
      let final_prompt :=
        join NL (spec_segments (message_count w) user_prefs) in
      (Returns final_prompt,
       after w ([entry_line w] ++ state_trace (message_count w)
                ++ [store_line user_prefs]
                ++ ["Final prompt: " +:+ final_prompt]))
  | Raises e =>
      (Raises e, after w ([entry_line w] ++ state_trace (message_count w)))
  end.
Proof.
  unfold context_aware_prompt, bind.
  rewrite collect_prompt_parts_run.
  destruct (preference_lookup w) as [user_prefs|e]; [|reflexivity].
  unfold print, ret, after, list_append;
    cbn [request stdout store_calls].
  do 2 f_equal. rewrite <- !app_assoc. cbn [app].
  by rewrite <- ?app_assoc.
Qed.

Lemma collect_prompt_parts_returns (w : World) user_prefs :
  preference_lookup w = Returns user_prefs →
  fst (collect_prompt_parts w)
  = Returns (spec_segments (message_count w) user_prefs).
Proof. intros Hl. rewrite collect_prompt_parts_run, Hl. reflexivity. Qed.

Lemma context_aware_prompt_returns (w : World) user_prefs :
  preference_lookup w = Returns user_prefs →
  fst (context_aware_prompt w)
  = Returns (join NL (spec_segments (message_count w) user_prefs)).
Proof. intros Hl. rewrite context_aware_prompt_run, Hl. reflexivity. Qed.

(** *** The shapes of the three segments *)

Lemma style_segment_not_BASE style : style_segment style ≠ BASE.
Proof. discriminate. Qed.

Lemma style_segment_not_LONG style : style_segment style ≠ LONG.
Proof. discriminate. Qed.

Lemma BASE_not_LONG : BASE ≠ LONG.
Proof. discriminate. Qed.

Lemma BASE_not_style : ¬ is_style_segment BASE.
Proof. intros [style Hs]. discriminate. Qed.

Lemma LONG_not_style : ¬ is_style_segment LONG.
Proof. intros [style Hs]. discriminate. Qed.




(** *** The long-conversation sentence in the text of the prompt *)

(** An occurrence of [p] that starts in [s] and fits in [s ++ rest] either
    lies within [s] or runs over into [rest]. *)
Lemma prefix_app_inv (p s rest : string) :
  String.prefix p (s +:+ rest) = true →
  String.prefix p s = true ∨ overlaps_start p rest = true.
Proof.
  revert s. induction p as [|a p IH]; intros s Hp; [left; by destruct s|].
  destruct s as [|c s].
  - right. change (EmptyString +:+ rest) with rest in Hp.
    cbn [overlaps_start]. by rewrite Hp.
  - change (String c s +:+ rest) with (String c (s +:+ rest)) in Hp.
    cbn [String.prefix] in *. destruct (ascii_dec a c); [|done].
    destruct (IH s Hp) as [Hin|Hover]; [by left|].
    right. cbn [overlaps_start]. rewrite Hover. apply orb_true_r.
Qed.

Lemma occurrences_LONG_style_tail (style : string) :
  contains LONG style = false →
  occurrences LONG (style +:+ " responses.") = 0.
Proof.
  induction style as [|c style IH]; [reflexivity|].
  cbn [contains]. intros Hc. apply orb_false_elim in Hc as [Hhere Hrest].
  change (String c style +:+ " responses.")
    with (String c (style +:+ " responses.")).
  cbn [occurrences]. rewrite (IH Hrest).
  destruct (String.prefix LONG (String c (style +:+ " responses."))) eqn:Hp;
    [|reflexivity].
  apply (prefix_app_inv LONG (String c style) " responses.") in Hp
    as [Hin|Hover]; [congruence|discriminate].
Qed.

Lemma occurrences_LONG_style_segment (style : string) :
  contains LONG style = false →
  occurrences LONG (style_segment style) = 0.
Proof.
  intros Hc. unfold style_segment. simpl.
  by apply occurrences_LONG_style_tail.
Qed.

(** X19. Read as text, the prompt holds the long-conversation sentence once
    with more than 10 messages and nowhere with 10 or fewer, as long as
    the stored style does not spell that sentence out itself. *)
Theorem long_conversation_sentence_in_text (w : World) user_prefs :
  preference_lookup w = Returns user_prefs →
  (∀ item, user_prefs = Some item → contains LONG (style_of item) = false) →
  ∃ final_prompt,
    fst (context_aware_prompt w) = Returns final_prompt ∧
    occurrences LONG final_prompt
    = if (10 <? message_count w)%nat then 1 else 0.
Proof.
  intros Hl Hstyle. eexists. split; [by apply context_aware_prompt_returns|].
  unfold spec_segments, long_part.
  destruct user_prefs as [item|]; [destruct (item_bool item) eqn:Hb|];
    cbn [style_part]; rewrite ?Hb;
    destruct (10 <? message_count w)%nat; try reflexivity.
  all: specialize (Hstyle item eq_refl);
    apply occurrences_LONG_style_tail in Hstyle;
    set (style := style_of item) in *; clearbody style;
    unfold style_segment; simpl;
    change (EmptyString +:+ style +:+ " responses.")
      with (style +:+ " responses.");
    by rewrite Hstyle.
Qed.

(** The first line of a prompt whose first segment is the base segment. *)
Lemma first_line_join_BASE rest : first_line (join NL (BASE :: rest)) = BASE.
Proof. destruct rest; reflexivity. Qed.

(** C3. Whenever the call returns, the prompt is not the empty string
    and its first line is the base segment. *)
Theorem prompt_starts_with_base_segment (w : World) user_prefs :
  preference_lookup w = Returns user_prefs →
  ∃ final_prompt,
    fst (context_aware_prompt w) = Returns final_prompt ∧
    final_prompt ≠ EmptyString ∧
    first_line final_prompt = "You are a helpful assistant.".
Proof.
  intros Hl. eexists. split; [by apply context_aware_prompt_returns|].
  unfold spec_segments. cbn [app]. split.
  - destruct (long_part _ ++ style_part _)%list; discriminate.
  - apply first_line_join_BASE.
Qed.

(** C4. The returned string is the newline-join of the collected
    segments, which are the base segment, then the long-conversation
    segment if any, then the style segment if any; with 15 messages and
    no preference record it is the two-line prompt of scenario B. *)
Theorem prompt_is_join_of_segments_in_order (w : World) user_prefs :
  preference_lookup w = Returns user_prefs →
  fst (collect_prompt_parts w)
    = Returns ([BASE] ++ long_part (message_count w)
               ++ style_part user_prefs)%list ∧
  fst (context_aware_prompt w)
    = Returns (join NL ([BASE] ++ long_part (message_count w)
                        ++ style_part user_prefs)%list) ∧
  (message_count w = 15 → user_prefs = None →
   fst (context_aware_prompt w)
     = Returns ("You are a helpful assistant." +:+ NL +:+
                "This is a long conversation - be extra concise.")).
Proof.
  intros Hl.
  split; [by apply collect_prompt_parts_returns|].
  split; [by apply context_aware_prompt_returns|].
  intros Hn ->. rewrite (context_aware_prompt_returns _ _ Hl), Hn.
  reflexivity.
Qed.

Lemma style_part_elem user_prefs s :
  s ∈ style_part user_prefs →
  truthy user_prefs = true ∧ is_style_segment s.
Proof.
  destruct user_prefs as [[[] v]|]; cbn [style_part item_bool truthy];
    intros Hin; try by apply elem_of_nil in Hin.
  apply list_elem_of_singleton in Hin as ->.
  split; [reflexivity|]. by eexists.
Qed.

Lemma long_part_elem n s : s ∈ long_part n → s = LONG.
Proof.
  unfold long_part. destruct (10 <? n)%nat; intros Hin.
  - by apply list_elem_of_singleton in Hin.
  - by apply elem_of_nil in Hin.
Qed.

Lemma spec_segments_style_elem n user_prefs s :
  s ∈ spec_segments n user_prefs → is_style_segment s →
  s ∈ style_part user_prefs.
Proof.
  unfold spec_segments. rewrite !elem_of_app, list_elem_of_singleton.
  intros [->|[Hin|Hin]] Hs; [|apply long_part_elem in Hin as ->|done].
  - by apply BASE_not_style in Hs.
  - by apply LONG_not_style in Hs.
Qed.



(** C5. Two calls with the same caller, the same number of messages and
    the same preference lookup result give the same outcome, whatever
    else differs between the two worlds (what was printed before, which
    lookups were made before, what the messages say, what the store
    holds for other callers). *)
Theorem resolver_deterministic (w1 w2 : World) :
  caller_id w1 = caller_id w2 →
  message_count w1 = message_count w2 →
  preference_lookup w1 = preference_lookup w2 →
  fst (context_aware_prompt w1) = fst (context_aware_prompt w2).
Proof.
  intros _ Hn Hl. rewrite !context_aware_prompt_run, <- Hl, Hn.
  by destruct (preference_lookup w1).
Qed.

(** C6. When the preference lookup raises, the call raises that same
    exception and returns no prompt; the store was asked exactly once,
    and nothing was printed after the lookup. *)
Theorem lookup_failure_propagates (w : World) (e : PyExc) :
  preference_lookup w = Raises e →
  fst (context_aware_prompt w) = Raises e ∧
  (∀ final_prompt, fst (context_aware_prompt w) ≠ Returns final_prompt) ∧
  store_calls (snd (context_aware_prompt w))
    = (store_calls w ++ [(["preferences"], caller_id w)])%list ∧
  stdout (snd (context_aware_prompt w))
    = (stdout w ++ [entry_line w] ++ state_trace (message_count w))%list.
Proof.
  intros Hl. rewrite context_aware_prompt_run, Hl. cbn [fst snd].
  repeat split. discriminate.
Qed.

(** C7. A call leaves the request (and with it the runtime context and
    the store with its records) as it found it and only adds lines to
    the standard output; what it returns is determined by the caller,
    the message count and the lookup result, and is the same whatever
    has been printed or looked up before. *)
Theorem resolver_reads_only (w : World) :
  request (snd (context_aware_prompt w)) = request w ∧
  (∃ lines, stdout (snd (context_aware_prompt w)) = (stdout w ++ lines)%list) ∧
  fst (context_aware_prompt w)
    = resolved_prompt (message_count w) (preference_lookup w) ∧
  ∀ out calls,
    fst (context_aware_prompt
           {| request := request w; stdout := out; store_calls := calls |})
    = fst (context_aware_prompt w).
Proof.
  split; [|split; [|split]].
  - rewrite context_aware_prompt_run. by destruct (preference_lookup w).
  - rewrite context_aware_prompt_run.
    destruct (preference_lookup w); cbn [fst snd after stdout]; by eexists.
  - rewrite context_aware_prompt_run. by destruct (preference_lookup w).
  - intros out calls. rewrite !context_aware_prompt_run.
    unfold preference_lookup, message_count, caller_id; cbn [request].
    by destruct (store_get _ _ _).
Qed.

Lemma falsy_as_absent user_prefs :
  truthy user_prefs = false →
  style_part user_prefs = style_part None ∧
  store_line user_prefs = store_line None.
Proof. by destruct user_prefs as [[[] v]|]. Qed.

(** C8. A lookup result that fails the truth test [if user_prefs]
    ([None], or a record object whose truth value is false) adds no
    style segment, and the call returns and prints exactly what a call
    with the same caller and message count returns and prints when the
    lookup gives [None]. *)
Theorem falsy_lookup_behaves_as_absent (w w' : World) user_prefs :
  preference_lookup w = Returns user_prefs →
  truthy user_prefs = false →
  preference_lookup w' = Returns None →
  caller_id w' = caller_id w →
  message_count w' = message_count w →
  fst (context_aware_prompt w) = fst (context_aware_prompt w') ∧
  (∃ lines,
     stdout (snd (context_aware_prompt w)) = (stdout w ++ lines)%list ∧
     stdout (snd (context_aware_prompt w')) = (stdout w' ++ lines)%list) ∧
  ∃ parts,
    fst (collect_prompt_parts w) = Returns parts ∧
    ∀ s, s ∈ parts → ¬ is_style_segment s.
Proof.
  intros Hl Hf Hl' Hid Hn.
  destruct (falsy_as_absent _ Hf) as [Hsp Hsl].
  rewrite !context_aware_prompt_run, Hl, Hl', Hn.
  unfold spec_segments, entry_line. rewrite Hsp, Hsl, Hid, Hn.
  cbn [fst snd after stdout]. split; [reflexivity|].
  split; [by eexists|].
  eexists. split; [by apply collect_prompt_parts_returns|].
  intros s Hin Hs.
  apply spec_segments_style_elem in Hin; [|done].
  apply style_part_elem in Hin as [Ht _]. congruence.
Qed.

(** Each step hands on the list it was given, with at most one segment
    added at its end. *)
Lemma state_context_extends n prompt_parts (w : World) :
  ∃ tail,
    fst (state_context n prompt_parts w) = Returns (prompt_parts ++ tail)%list ∧
    (length tail ≤ 1)%nat.
Proof.
  unfold state_context, bind, print, ret, list_append.
  destruct (10 <? n)%nat; cbn [fst].
  - exists [LONG]. split; [reflexivity|cbn; lia].
  - exists []. rewrite app_nil_r. split; [reflexivity|cbn; lia].
Qed.

Lemma store_context_extends user_id prompt_parts (w : World) parts :
  fst (store_context user_id prompt_parts w) = Returns parts →
  ∃ tail, parts = (prompt_parts ++ tail)%list ∧ (length tail ≤ 1)%nat.
Proof.
  unfold store_context, bind, read, get, print, ret, list_append.
  cbn [request runtime store].
  destruct (store_get _ _ _) as [[[[] v]|]|e]; cbn [truthy item_bool fst];
    intros Heq; inversion Heq; subst.
  - eexists [_]. split; [reflexivity|cbn; lia].
  - exists []. rewrite app_nil_r. split; [reflexivity|cbn; lia].
  - exists []. rewrite app_nil_r. split; [reflexivity|cbn; lia].
Qed.

(** C9. Whenever the call returns, the prompt is the newline-join of at
    least one and at most three segments; the list starts as the base
    segment alone, and each of the two steps returns the list it was
    given with nothing removed and at most one segment added. *)
Theorem between_one_and_three_segments (w : World) user_prefs :
  preference_lookup w = Returns user_prefs →
  ∃ after_state parts,
    fst (state_context (message_count w) [BASE] w) = Returns after_state ∧
    fst (store_context (caller_id w) after_state w) = Returns parts ∧
    fst (collect_prompt_parts w) = Returns parts ∧
    fst (context_aware_prompt w) = Returns (join NL parts) ∧
    [BASE] `prefix_of` after_state ∧
    after_state `prefix_of` parts ∧
    (1 ≤ length parts ≤ 3)%nat.
Proof.
  intros Hl.
  destruct (state_context_extends (message_count w) [BASE] w)
    as (t1 & Hs1 & Hlen1).
  exists ([BASE] ++ t1)%list, (spec_segments (message_count w) user_prefs).
  assert (Hstore :
    fst (store_context (caller_id w) ([BASE] ++ t1)%list w)
    = Returns (spec_segments (message_count w) user_prefs)).
  { revert Hs1. unfold state_context, store_context, spec_segments, long_part,
      bind, read, get, print, ret, list_append.
    fold (preference_lookup w). rewrite Hl.
    destruct (10 <? message_count w)%nat; cbn [fst]; intros Heq;
      inversion Heq; subst t1;
      by destruct user_prefs as [[[] v]|]. }
  destruct (store_context_extends _ _ _ _ Hstore) as (t2 & Hp & Hlen2).
  split; [done|]. split; [done|].
  split; [by apply collect_prompt_parts_returns|].
  split; [by apply context_aware_prompt_returns|].
  split; [by eexists|]. split; [by eexists|].
  rewrite Hp, !length_app. cbn [length]. lia.
Qed.

End Resolver.

(** *** The theorems at the scenarios of the specification *)
Import Examples.



Lemma prompt_starts_with_base_scenario_D :
  ∃ final_prompt,
    fst (context_aware_prompt scenario_D) = Returns final_prompt ∧
    final_prompt ≠ EmptyString ∧
    first_line final_prompt = "You are a helpful assistant.".
Proof.
  apply (prompt_starts_with_base_segment scenario_D (Some no_style_field)).
  vm_compute. reflexivity.
Defined.

Lemma prompt_is_join_scenario_B :
  fst (collect_prompt_parts scenario_B)
    = Returns ([BASE] ++ long_part (message_count scenario_B)
               ++ style_part None)%list ∧
  fst (context_aware_prompt scenario_B)
    = Returns (join NL ([BASE] ++ long_part (message_count scenario_B)
                        ++ style_part None)%list) ∧
  (message_count scenario_B = 15 → @None Item = None →
   fst (context_aware_prompt scenario_B)
     = Returns ("You are a helpful assistant." +:+ NL +:+
                "This is a long conversation - be extra concise.")).
Proof.
  apply (prompt_is_join_of_segments_in_order scenario_B None).
  reflexivity.
Defined.

Lemma resolver_deterministic_scenario_C :
  fst (context_aware_prompt scenario_C)
  = fst (context_aware_prompt scenario_C_later).
Proof.
  apply (resolver_deterministic scenario_C scenario_C_later);
    vm_compute; reflexivity.
Defined.

Lemma lookup_failure_scenario_unreachable :
  fst (context_aware_prompt scenario_unreachable) = Raises ConnectionError ∧
  (∀ final_prompt,
     fst (context_aware_prompt scenario_unreachable) ≠ Returns final_prompt) ∧
  store_calls (snd (context_aware_prompt scenario_unreachable))
    = (store_calls scenario_unreachable
       ++ [(["preferences"], caller_id scenario_unreachable)])%list ∧
  stdout (snd (context_aware_prompt scenario_unreachable))
    = (stdout scenario_unreachable ++ [entry_line scenario_unreachable]
       ++ state_trace (message_count scenario_unreachable))%list.
Proof.
  apply (lookup_failure_propagates scenario_unreachable ConnectionError).
  reflexivity.
Defined.

Lemma falsy_lookup_scenario :
  fst (context_aware_prompt scenario_falsy)
    = fst (context_aware_prompt scenario_A) ∧
  (∃ lines,
     stdout (snd (context_aware_prompt scenario_falsy))
       = (stdout scenario_falsy ++ lines)%list ∧
     stdout (snd (context_aware_prompt scenario_A))
       = (stdout scenario_A ++ lines)%list) ∧
  ∃ parts,
    fst (collect_prompt_parts scenario_falsy) = Returns parts ∧
    ∀ s, s ∈ parts → ¬ is_style_segment s.
Proof.
  apply (falsy_lookup_behaves_as_absent scenario_falsy scenario_A
           (Some falsy_record)); vm_compute; reflexivity.
Defined.

Lemma between_one_and_three_scenario_D :
  ∃ after_state parts,
    fst (state_context (message_count scenario_D) [BASE] scenario_D)
      = Returns after_state ∧
    fst (store_context (caller_id scenario_D) after_state scenario_D)
      = Returns parts ∧
    fst (collect_prompt_parts scenario_D) = Returns parts ∧
    fst (context_aware_prompt scenario_D) = Returns (join NL parts) ∧
    [BASE] `prefix_of` after_state ∧
    after_state `prefix_of` parts ∧
    (1 ≤ length parts ≤ 3)%nat.
Proof.
  apply (between_one_and_three_segments scenario_D (Some no_style_field)).
  vm_compute. reflexivity.
Defined.

Lemma long_conversation_sentence_scenario_D :
  ∃ final_prompt,
    fst (context_aware_prompt scenario_D) = Returns final_prompt ∧
    occurrences LONG final_prompt
    = if (10 <? message_count scenario_D)%nat then 1 else 0.
Proof.
  apply (long_conversation_sentence_in_text scenario_D (Some no_style_field)).
  - vm_compute. reflexivity.
  - intros item Hitem. inversion Hitem. vm_compute. reflexivity.
Defined.

(** The style is put into the prompt as stored: a style that spells out
    the long-conversation sentence brings that text into the prompt, while
    the long-conversation segment itself is not among the segments. *)
Example stored_style_is_not_inspected :
  fst (collect_prompt_parts scenario_echo)
    = Returns [BASE; style_segment LONG] ∧
  (∃ final_prompt,
     fst (context_aware_prompt scenario_echo) = Returns final_prompt ∧
     occurrences LONG final_prompt = 1).
Proof. split; [|eexists; split]; vm_compute; reflexivity. Qed.

(** The scenarios of the specification, evaluated. *)
Example scenario_A_prompt :
  fst (context_aware_prompt scenario_A) = Returns "You are a helpful assistant.".
Proof. vm_compute. reflexivity. Qed.

Example scenario_C_prompt :
  fst (context_aware_prompt scenario_C)
  = Returns ("You are a helpful assistant." +:+ NL +:+
             "User prefers formal responses.").
Proof. vm_compute. reflexivity. Qed.

Example scenario_D_prompt :
  fst (context_aware_prompt scenario_D)
  = Returns ("You are a helpful assistant." +:+ NL +:+
             "This is a long conversation - be extra concise." +:+ NL +:+
             "User prefers balanced responses.").
Proof. vm_compute. reflexivity. Qed.

Example ten_messages_is_not_long :
  fst (context_aware_prompt (world_of "alice" 10 empty_store []))
  = Returns "You are a helpful assistant.".
Proof. vm_compute. reflexivity. Qed.

(** An in-memory store never makes the call raise. *)
Lemma in_memory_store_always_returns (w : @World InMemoryStore) :
  ∃ final_prompt, fst (context_aware_prompt w) = Returns final_prompt.
Proof.
  eexists. apply context_aware_prompt_returns. reflexivity.
Qed.

End ContextMiddlewareSpec.

(** ** Properties of the knowledge orchestrator *)
Module KnowledgeAgentSpec.
Import KnowledgeAgent Examples.

(** The two placeholders the handler of lines 74-81 can produce. *)
Lemma handler_placeholder (error_msg : string) :
  let memory_context :=
    if contains "ExpiredTokenException" error_msg
       || contains "expired" (lower error_msg)
    then "(Memory unavailable - AWS credentials expired.)"
    else "(Memory unavailable: " +:+ error_msg +:+ ")" in
  String.prefix "(Memory unavailable" memory_context = true ∧
  memory_context ≠ EmptyString.
Proof.
  cbv zeta.
  destruct (contains "ExpiredTokenException" error_msg
            || contains "expired" (lower error_msg));
    split; (reflexivity || discriminate).
Qed.

(** What lines 67-81 do when the retrieval raises an [Exception]. *)
Lemma retrieve_memory_context_caught (knowledge_agent : Agent)
    (topic user_id : string) (e : PyExc) (t : list event) :
  mem0_retrieve knowledge_agent topic user_id = Raises e →
  is_Exception e = true →
  ∃ memory_context notice,
    retrieve_memory_context knowledge_agent topic user_id t
      = (Returns memory_context,
         (t ++ [MemoryRetrieve topic user_id; Printed notice])%list) ∧
    (memory_context = "(Memory unavailable - AWS credentials expired.)" ∨
     memory_context = "(Memory unavailable: " +:+ exc_str e +:+ ")") ∧
    String.prefix "(Memory unavailable" memory_context = true ∧
    memory_context ≠ EmptyString.
Proof.
  intros Hr He.
  unfold retrieve_memory_context, try_except, bind, emit.
  rewrite Hr, He.
  pose proof (handler_placeholder (exc_str e)) as Hp. cbv zeta in Hp.
  destruct (contains "ExpiredTokenException" (exc_str e)
            || contains "expired" (lower (exc_str e))).
  - eexists _, _. unfold print, emit, ret, list_append.
    split; [by rewrite <- app_assoc|]. split; [by left|exact Hp].
  - eexists _, _. unfold print, emit, ret, list_append.
    split; [by rewrite <- app_assoc|]. split; [by right|exact Hp].
Qed.

(** What lines 67-81 do when the retrieval raises something that is not an
    [Exception]: nothing is caught. *)
Lemma retrieve_memory_context_not_caught (knowledge_agent : Agent)
    (topic user_id : string) (e : PyExc) (t : list event) :
  mem0_retrieve knowledge_agent topic user_id = Raises e →
  is_Exception e = false →
  retrieve_memory_context knowledge_agent topic user_id t
    = (Raises e, (t ++ [MemoryRetrieve topic user_id])%list).
Proof.
  intros Hr He.
  unfold retrieve_memory_context, try_except, bind, emit.
  by rewrite Hr, He.
Qed.

(** The model invocation is recorded whatever the model and the store do
    afterwards. *)
Lemma invoke_orchestrator_invokes (knowledge_agent : Agent)
    (timestamp topic user_id memory_context : string) (t : list event) :
  ModelInvoked (orchestrator_prompt memory_context topic) user_id
  ∈ snd (invoke_orchestrator knowledge_agent timestamp topic user_id
           memory_context t).
Proof.
  unfold invoke_orchestrator, store_summary, try_except, bind, print, emit,
    ret, list_append.
  destruct (invoke knowledge_agent _ user_id) as [response|e]; cbn [snd].
  - destruct (mem0_store knowledge_agent _ user_id _) as [[]|e'];
      [|destruct (is_Exception e');
        [destruct (contains "ExpiredTokenException" (exc_str e')
                   || contains "expired" (lower (exc_str e')))|]];
      cbn [snd]; rewrite !elem_of_app, !list_elem_of_singleton; tauto.
  - rewrite !elem_of_app, !list_elem_of_singleton; tauto.
Qed.

(** The function is its two opening prints, the retrieval of lines 67-81
    and, if that returns, the invocation of lines 83-116. *)
Lemma knowledge_orchestrator_unfold (knowledge_agent : Agent)
    (timestamp topic user_id : string) (t : list event) :
  knowledge_orchestrator knowledge_agent timestamp topic user_id t
  = match retrieve_memory_context knowledge_agent topic user_id
            ((t ++ [Printed
                      (NL +:+
                       " [KnowledgeAgent] Coordinating multi-agent reasoning for query: "
                       +:+ topic +:+ NL)])
               ++ [Printed "Retrieving prior context from Mem0 memory..."])%list
    with
    | (Returns memory_context, t') =>
        invoke_orchestrator knowledge_agent timestamp topic user_id
          memory_context t'
    | (Raises e, t') => (Raises e, t')
    end.
Proof. reflexivity. Qed.

(** C10, as the code has it. When the memory retrieval raises an instance
    of [Exception], the exception is caught: the memory context becomes a
    non-empty placeholder that begins with ["(Memory unavailable"] (the
    credentials-expired one or the one quoting the error), and the function
    goes on to invoke the model on the prompt built around it. *)
Theorem retrieval_exception_gives_placeholder (knowledge_agent : Agent)
    (timestamp topic user_id : string) (e : PyExc) (t : list event) :
  mem0_retrieve knowledge_agent topic user_id = Raises e →
  is_Exception e = true →
  ∃ memory_context t',
    (memory_context = "(Memory unavailable - AWS credentials expired.)" ∨
     memory_context = "(Memory unavailable: " +:+ exc_str e +:+ ")") ∧
    String.prefix "(Memory unavailable" memory_context = true ∧
    memory_context ≠ EmptyString ∧
    knowledge_orchestrator knowledge_agent timestamp topic user_id t
      = invoke_orchestrator knowledge_agent timestamp topic user_id
          memory_context t' ∧
    MemoryRetrieve topic user_id ∈ t' ∧
    ModelInvoked (orchestrator_prompt memory_context topic) user_id
    ∈ snd (knowledge_orchestrator knowledge_agent timestamp topic user_id t).
Proof.
  intros Hr He.
  assert (Hrun : ∀ t0, ∃ memory_context t',
    (memory_context = "(Memory unavailable - AWS credentials expired.)" ∨
     memory_context = "(Memory unavailable: " +:+ exc_str e +:+ ")") ∧
    String.prefix "(Memory unavailable" memory_context = true ∧
    memory_context ≠ EmptyString ∧
    MemoryRetrieve topic user_id ∈ t' ∧
    retrieve_memory_context knowledge_agent topic user_id t0
      = (Returns memory_context, t')).
  { intros t0.
    destruct (retrieve_memory_context_caught knowledge_agent topic user_id e t0
                Hr He) as (mc & notice & Hrun & Hform & Hpre & Hne).
    exists mc, (t0 ++ [MemoryRetrieve topic user_id; Printed notice])%list.
    repeat split; try done.
    rewrite elem_of_app. right. apply list_elem_of_here. }
  rewrite knowledge_orchestrator_unfold.
  match goal with
  | |- context [retrieve_memory_context _ _ _ ?t0] =>
      destruct (Hrun t0) as (mc & t' & Hform & Hpre & Hne & Hin & Heq)
  end.
  exists mc, t'. rewrite Heq.
  repeat split; try done.
  apply invoke_orchestrator_invokes.
Qed.

(** C10 as stated fails on an exception outside [Exception]: a
    [KeyboardInterrupt] raised by the retrieval leaves the function, and
    the model is never invoked. *)
Lemma retrieval_interrupt_propagates :
  mem0_retrieve (agent_with_failing_memory KeyboardInterrupt "answer")
    "topic" "alice" = Raises KeyboardInterrupt ∧
  fst (knowledge_orchestrator
         (agent_with_failing_memory KeyboardInterrupt "answer")
         "2026-01-01 00:00:00 UTC" "topic" "alice" [])
  = Raises KeyboardInterrupt ∧
  filter is_model_invocation
    (snd (knowledge_orchestrator
            (agent_with_failing_memory KeyboardInterrupt "answer")
            "2026-01-01 00:00:00 UTC" "topic" "alice" []))
  = [].
Proof. vm_compute. repeat split. Qed.

Lemma retrieval_exception_expired_token :
  ∃ memory_context t',
    (memory_context = "(Memory unavailable - AWS credentials expired.)" ∨
     memory_context = "(Memory unavailable: " +:+ exc_str ExpiredToken +:+ ")") ∧
    String.prefix "(Memory unavailable" memory_context = true ∧
    memory_context ≠ EmptyString ∧
    knowledge_orchestrator (agent_with_failing_memory ExpiredToken "answer")
      "2026-01-01 00:00:00 UTC" "topic" "alice" []
      = invoke_orchestrator (agent_with_failing_memory ExpiredToken "answer")
          "2026-01-01 00:00:00 UTC" "topic" "alice" memory_context t' ∧
    MemoryRetrieve "topic" "alice" ∈ t' ∧
    ModelInvoked (orchestrator_prompt memory_context "topic") "alice"
    ∈ snd (knowledge_orchestrator
             (agent_with_failing_memory ExpiredToken "answer")
             "2026-01-01 00:00:00 UTC" "topic" "alice" []).
Proof.
  apply (retrieval_exception_gives_placeholder
           (agent_with_failing_memory ExpiredToken "answer")
           "2026-01-01 00:00:00 UTC" "topic" "alice" ExpiredToken []);
    reflexivity.
Defined.

(** With the expired-token failure the function returns the model's
    answer, having told the model that memory is unavailable. *)
Example expired_token_run :
  fst (knowledge_orchestrator (agent_with_failing_memory ExpiredToken "answer")
         "2026-01-01 00:00:00 UTC" "topic" "alice" [])
  = Returns "answer" ∧
  filter is_model_invocation
    (snd (knowledge_orchestrator (agent_with_failing_memory ExpiredToken "answer")
            "2026-01-01 00:00:00 UTC" "topic" "alice" []))
  = [ModelInvoked
       (orchestrator_prompt "(Memory unavailable - AWS credentials expired.)"
          "topic")
       "alice"].
Proof. vm_compute. split; reflexivity. Qed.

End KnowledgeAgentSpec.

(** ** Further properties of the knowledge orchestrator *)
Module KnowledgeAgentRuns.
Import KnowledgeAgent Traces Examples.

(** Formatting the memories touches no trace, and its outcome does not
    depend on the trace. *)
Lemma memory_lines_run (results : list memory) (t : list event) :
  memory_lines results t = (fst (memory_lines results []), t).
Proof.
  revert t. induction results as [|m rest IH]; intros t; [reflexivity|].
  cbn [memory_lines]. unfold bind, memory_line.
  destruct (m !! "memory") as [v|]; [|reflexivity].
  unfold ret at 1 3. rewrite (IH t), (IH []). cbn [fst].
  by destruct (fst (memory_lines rest [])).
Qed.

Lemma memory_lines_all_present (results : list memory) :
  Forall (λ m : memory, is_Some (m !! "memory")) results →
  fst (memory_lines results [])
  = Returns (map (λ m, "- " +:+ memory_text m) results).
Proof.
  induction 1 as [|m rest [v Hv] _ IH]; [reflexivity|].
  cbn [memory_lines map]. unfold bind, memory_line, memory_text.
  rewrite Hv. unfold ret at 1. rewrite memory_lines_run, IH. reflexivity.
Qed.

Lemma memory_lines_one_missing (results : list memory) :
  Exists (λ m : memory, m !! "memory" = None) results →
  fst (memory_lines results []) = Raises (KeyError "memory").
Proof.
  induction results as [|m rest IH]; intros Hex; [by inversion Hex|].
  cbn [memory_lines]. unfold bind, memory_line.
  destruct (m !! "memory") as [v|] eqn:Hm; [|reflexivity].
  unfold ret at 1. rewrite memory_lines_run.
  inversion Hex as [? ? Hhere|? ? Hlater]; subst; [congruence|].
  by rewrite (IH Hlater).
Qed.

(** A dict with a ["results"] entry that is a non-empty list passes the
    truth test of line 69. *)
Lemma found_results_some (d : gmap string (list memory)) m rest :
  d !! "results" = Some (m :: rest) →
  found_results (Some d) = Some (m :: rest).
Proof.
  intros Hd. unfold found_results.
  destruct (size d =? 0)%nat eqn:Hsize; [|by rewrite Hd].
  apply Nat.eqb_eq, map_size_empty_iff in Hsize. subst d.
  by rewrite lookup_empty in Hd.
Qed.

(** X1. When the retrieval returns a non-empty list of memories that all
    have the ["memory"] field, the memory context is one line
    ["- {memory}"] per memory, in the order retrieved; one line is printed,
    telling how many there are, and nothing is left out or cut. *)
Theorem retrieved_memories_become_bullets (knowledge_agent : Agent)
    (topic user_id : string) (d : gmap string (list memory))
    (results : list memory) (t : list event) :
  mem0_retrieve knowledge_agent topic user_id = Returns (Some d) →
  d !! "results" = Some results →
  results ≠ [] →
  Forall (λ m : memory, is_Some (m !! "memory")) results →
  retrieve_memory_context knowledge_agent topic user_id t
  = (Returns (join NL (map (λ m, "- " +:+ memory_text m) results)),
     (t ++ [MemoryRetrieve topic user_id;
            Printed ("Found " +:+ pretty (length results) +:+
                     " relevant prior memories.")])%list).
Proof.
  intros Hr Hd Hne Hall.
  destruct results as [|m rest]; [done|].
  unfold retrieve_memory_context, try_except, bind, emit. rewrite Hr.
  rewrite (found_results_some d m rest Hd).
  unfold print, emit, list_append. rewrite memory_lines_run.
  rewrite (memory_lines_all_present _ Hall). unfold ret.
  by rewrite <- app_assoc.
Qed.

(** X2. When the retrieval returns [None], an empty dict, a dict without
    ["results"] or one whose ["results"] is an empty list, the memory
    context is the fixed sentence that nothing was found, and nothing is
    printed. *)
Theorem nothing_retrieved_gives_fixed_sentence (knowledge_agent : Agent)
    (topic user_id : string) (past_memories : retrieved) (t : list event) :
  mem0_retrieve knowledge_agent topic user_id = Returns past_memories →
  (past_memories = None ∨
   ∃ d, past_memories = Some d ∧
        (d = ∅ ∨ d !! "results" = None ∨ d !! "results" = Some [])) →
  retrieve_memory_context knowledge_agent topic user_id t
  = (Returns "(No relevant prior memory found.)",
     (t ++ [MemoryRetrieve topic user_id])%list).
Proof.
  intros Hr Hcase.
  assert (Hnone : found_results past_memories = None).
  { destruct Hcase as [->|(d & -> & [->|[Hd|Hd]])]; [done|done| |];
      unfold found_results; destruct (size d =? 0)%nat; by rewrite ?Hd. }
  unfold retrieve_memory_context, try_except, bind, emit.
  by rewrite Hr, Hnone.
Qed.

(** X3. A retrieved memory without the ["memory"] field makes the lookup
    [m['memory']] raise [KeyError] inside the [try]; the handler turns it
    into the memory-unavailable placeholder quoting the key, after the
    count of memories has been printed. *)
Theorem malformed_memory_reported_as_unavailable (knowledge_agent : Agent)
    (topic user_id : string) (d : gmap string (list memory))
    (results : list memory) (t : list event) :
  mem0_retrieve knowledge_agent topic user_id = Returns (Some d) →
  d !! "results" = Some results →
  Exists (λ m : memory, m !! "memory" = None) results →
  retrieve_memory_context knowledge_agent topic user_id t
  = (Returns "(Memory unavailable: 'memory')",
     (t ++ [MemoryRetrieve topic user_id;
            Printed ("Found " +:+ pretty (length results) +:+
                     " relevant prior memories.");
            Printed "Error retrieving memory: 'memory'"])%list).
Proof.
  intros Hr Hd Hex.
  destruct results as [|m rest]; [by inversion Hex|].
  unfold retrieve_memory_context, try_except, bind, emit. rewrite Hr.
  rewrite (found_results_some d m rest Hd).
  unfold print, emit, list_append. rewrite memory_lines_run.
  rewrite (memory_lines_one_missing _ Hex). cbn [fst is_Exception KeyError].
  change (contains "ExpiredTokenException" (exc_str (KeyError "memory"))
          || contains "expired" (lower (exc_str (KeyError "memory"))))
    with false.
  cbn iota. unfold ret. rewrite <- !app_assoc. reflexivity.
Qed.




(** X4. When the model invocation raises, whatever it raises leaves the
    function unchanged: it is outside every [try]. Nothing is stored, and
    nothing is printed after the invocation. *)
Theorem model_failure_propagates (knowledge_agent : Agent)
    (timestamp topic user_id memory_context : string) (e : PyExc)
    (t : list event) :
  invoke knowledge_agent (orchestrator_prompt memory_context topic) user_id
    = Raises e →
  invoke_orchestrator knowledge_agent timestamp topic user_id memory_context t
  = (Raises e,
     (t ++ [Printed "Running orchestrator model (Palmyra-X5)...";
            ModelInvoked (orchestrator_prompt memory_context topic) user_id])%list).
Proof.
  intros Hi. unfold invoke_orchestrator, bind, print, emit, list_append.
  rewrite Hi. by rewrite <- app_assoc.
Qed.

(** X5. When the model answers and storing the summary raises an
    [Exception], the function still returns the model's answer, whole: the
    failure to store is printed and dropped. *)
Theorem store_failure_is_dropped (knowledge_agent : Agent)
    (timestamp topic user_id memory_context : string)
    (response : AgentResult) (e : PyExc) (t : list event) :
  invoke knowledge_agent (orchestrator_prompt memory_context topic) user_id
    = Returns response →
  mem0_store knowledge_agent
    ("Session summary for '" +:+ topic +:+ "' at " +:+ timestamp +:+ ":"
     +:+ NL +:+ take_prefix 800 (result_str response))
    user_id [("agent", "KnowledgeAgent"); ("topic", topic)] = Raises e →
  is_Exception e = true →
  fst (invoke_orchestrator knowledge_agent timestamp topic user_id
         memory_context t) = Returns (result_str response) ∧
  ∃ notice,
    (notice = "Could not store session summary - AWS credentials expired." ∨
     notice = "Could not store session summary: " +:+ exc_str e) ∧
    last (snd (invoke_orchestrator knowledge_agent timestamp topic user_id
                 memory_context t)) = Some (Printed notice).
Proof.
  intros Hi Hs He.
  unfold invoke_orchestrator, store_summary, try_except, bind, print, emit,
    ret, list_append.
  rewrite Hi, Hs, He.
  destruct (contains "ExpiredTokenException" (exc_str e)
            || contains "expired" (lower (exc_str e)));
    cbn [fst snd]; (split; [reflexivity|]); eexists;
    (split; [|apply last_snoc]); auto.
Qed.


(** *** The calls of a run *)





(** *** Which placeholder the handler chooses *)

Lemma prefix_app_self (p rest : string) : String.prefix p (p +:+ rest) = true.
Proof.
  induction p as [|a p IH]; simpl; [by destruct rest|].
  by destruct (ascii_dec a a).
Qed.

Lemma prefix_true_inv (p s : string) :
  String.prefix p s = true → ∃ rest, s = p +:+ rest.
Proof.
  revert s. induction p as [|a p IH]; intros s Hp; [by exists s|].
  destruct s as [|c s]; [done|]. cbn in Hp.
  destruct (ascii_dec a c) as [->|]; [|done].
  destruct (IH s Hp) as [rest ->]. by exists rest.
Qed.

Lemma contains_app_intro (before sub rest : string) :
  contains sub (before +:+ sub +:+ rest) = true.
Proof.
  induction before as [|c before IH].
  - change (EmptyString +:+ sub +:+ rest) with (sub +:+ rest).
    destruct (sub +:+ rest) eqn:Heq; cbn [contains];
      rewrite <- Heq, prefix_app_self; reflexivity.
  - change (String c before +:+ sub +:+ rest)
      with (String c (before +:+ sub +:+ rest)).
    cbn [contains]. rewrite IH. apply orb_true_r.
Qed.

Lemma contains_true_inv (sub s : string) :
  contains sub s = true → ∃ before rest, s = before +:+ sub +:+ rest.
Proof.
  induction s as [|c s IH]; cbn [contains]; intros Hc.
  - rewrite orb_false_r in Hc. apply prefix_true_inv in Hc as [rest ->].
    by exists EmptyString, rest.
  - apply orb_true_iff in Hc as [Hp|Hc].
    + apply prefix_true_inv in Hp as [rest ->]. by exists EmptyString, rest.
    + destruct (IH Hc) as (before & rest & ->).
      by exists (String c before), rest.
Qed.

Lemma lower_app (a b : string) : lower (a +:+ b) = lower a +:+ lower b.
Proof.
  induction a as [|c a IH]; [reflexivity|].
  change (String c a +:+ b) with (String c (a +:+ b)).
  cbn [lower]. rewrite IH. reflexivity.
Qed.

(** A message that names [ExpiredTokenException] also holds ["expired"]
    once lower-cased: the first test of lines 76 and 111 never decides. *)
Lemma expired_token_is_expired (error_msg : string) :
  contains "ExpiredTokenException" error_msg = true →
  contains "expired" (lower error_msg) = true.
Proof.
  intros Hc. apply contains_true_inv in Hc as (before & rest & ->).
  rewrite !lower_app.
  exact (contains_app_intro (lower before) "expired"
           ("tokenexception" +:+ lower rest)).
Qed.

(** X8. When the retrieval raises an [Exception], the placeholder is the
    credentials-expired one exactly when the message, lower-cased, holds
    ["expired"] (so in any mix of upper and lower case, and in particular
    whenever it names [ExpiredTokenException]); otherwise the placeholder
    quotes the message as it is. *)
Theorem placeholder_is_decided_by_lowercase_expired (knowledge_agent : Agent)
    (topic user_id : string) (e : PyExc) (t : list event) :
  mem0_retrieve knowledge_agent topic user_id = Raises e →
  is_Exception e = true →
  fst (retrieve_memory_context knowledge_agent topic user_id t)
  = Returns (if contains "expired" (lower (exc_str e))
             then "(Memory unavailable - AWS credentials expired.)"
             else "(Memory unavailable: " +:+ exc_str e +:+ ")").
Proof.
  intros Hr He.
  unfold retrieve_memory_context, try_except, bind, emit. rewrite Hr, He.
  destruct (contains "expired" (lower (exc_str e))) eqn:Hlow.
  - by rewrite orb_true_r.
  - destruct (contains "ExpiredTokenException" (exc_str e)) eqn:Hname;
      [|reflexivity].
    apply expired_token_is_expired in Hname. congruence.
Qed.

(** *** The theorems at concrete agents *)
Import AgentExamples.

Lemma two_memories_become_bullets :
  retrieve_memory_context
    (agent_of (Returns (with_results two_memories)) (answered "ok") (Returns tt))
    "topic" "alice" []
  = (Returns (join NL (map (λ m, "- " +:+ memory_text m) two_memories)),
     ([] ++ [MemoryRetrieve "topic" "alice";
             Printed ("Found " +:+ pretty (length two_memories) +:+
                      " relevant prior memories.")])%list).
Proof.
  apply (retrieved_memories_become_bullets
           (agent_of (Returns (with_results two_memories)) (answered "ok")
              (Returns tt))
           "topic" "alice" {[ "results" := two_memories ]} two_memories []).
  - reflexivity.
  - vm_compute. reflexivity.
  - discriminate.
  - repeat constructor; vm_compute; by eexists.
Defined.

Example two_memories_context :
  fst (retrieve_memory_context
         (agent_of (Returns (with_results two_memories)) (answered "ok")
            (Returns tt))
         "topic" "alice" [])
  = Returns ("- prefers short answers" +:+ NL +:+ "- works in finance").
Proof. vm_compute. reflexivity. Qed.

Lemma empty_results_give_fixed_sentence :
  retrieve_memory_context
    (agent_of (Returns (with_results [])) (answered "ok") (Returns tt))
    "topic" "alice" []
  = (Returns "(No relevant prior memory found.)",
     ([] ++ [MemoryRetrieve "topic" "alice"])%list).
Proof.
  apply (nothing_retrieved_gives_fixed_sentence
           (agent_of (Returns (with_results [])) (answered "ok") (Returns tt))
           "topic" "alice" (with_results []) []).
  - reflexivity.
  - right. exists {[ "results" := [] ]}. split; [reflexivity|].
    right; right. vm_compute. reflexivity.
Defined.

Lemma broken_memories_reported_as_unavailable :
  retrieve_memory_context
    (agent_of (Returns (with_results broken_memories)) (answered "ok")
       (Returns tt))
    "topic" "alice" []
  = (Returns "(Memory unavailable: 'memory')",
     ([] ++ [MemoryRetrieve "topic" "alice";
             Printed ("Found " +:+ pretty (length broken_memories) +:+
                      " relevant prior memories.");
             Printed "Error retrieving memory: 'memory'"])%list).
Proof.
  apply (malformed_memory_reported_as_unavailable
           (agent_of (Returns (with_results broken_memories)) (answered "ok")
              (Returns tt))
           "topic" "alice" {[ "results" := broken_memories ]}
           broken_memories []).
  - reflexivity.
  - vm_compute. reflexivity.
  - apply Exists_cons_tl, Exists_cons_hd. vm_compute. reflexivity.
Defined.

Lemma model_timeout_propagates :
  invoke_orchestrator
    (agent_of (Returns None) (Raises Timeout) (Returns tt))
    "2026-01-01 00:00:00 UTC" "topic" "alice"
    "(No relevant prior memory found.)" []
  = (Raises Timeout,
     ([] ++ [Printed "Running orchestrator model (Palmyra-X5)...";
             ModelInvoked
               (orchestrator_prompt "(No relevant prior memory found.)" "topic")
               "alice"])%list).
Proof.
  apply (model_failure_propagates
           (agent_of (Returns None) (Raises Timeout) (Returns tt))
           "2026-01-01 00:00:00 UTC" "topic" "alice"
           "(No relevant prior memory found.)" Timeout []).
  reflexivity.
Defined.

Lemma store_timeout_is_dropped :
  fst (invoke_orchestrator
         (agent_of (Returns None) (answered "the answer") (Raises Timeout))
         "2026-01-01 00:00:00 UTC" "topic" "alice"
         "(No relevant prior memory found.)" [])
    = Returns (result_str {| result_str := "the answer" |}) ∧
  ∃ notice,
    (notice = "Could not store session summary - AWS credentials expired." ∨
     notice = "Could not store session summary: " +:+ exc_str Timeout) ∧
    last (snd (invoke_orchestrator
                 (agent_of (Returns None) (answered "the answer")
                    (Raises Timeout))
                 "2026-01-01 00:00:00 UTC" "topic" "alice"
                 "(No relevant prior memory found.)" []))
    = Some (Printed notice).
Proof.
  apply (store_failure_is_dropped
           (agent_of (Returns None) (answered "the answer") (Raises Timeout))
           "2026-01-01 00:00:00 UTC" "topic" "alice"
           "(No relevant prior memory found.)"
           {| result_str := "the answer" |} Timeout []);
    reflexivity.
Defined.


Lemma upper_case_expired_gives_credentials_placeholder :
  fst (retrieve_memory_context
         (agent_of (Raises TokenEXPIRED) (answered "ok") (Returns tt))
         "topic" "alice" [])
  = Returns (if contains "expired" (lower (exc_str TokenEXPIRED))
             then "(Memory unavailable - AWS credentials expired.)"
             else "(Memory unavailable: " +:+ exc_str TokenEXPIRED +:+ ")").
Proof.
  apply (placeholder_is_decided_by_lowercase_expired
           (agent_of (Raises TokenEXPIRED) (answered "ok") (Returns tt))
           "topic" "alice" TokenEXPIRED []);
    reflexivity.
Defined.

Example upper_case_expired_context :
  fst (retrieve_memory_context
         (agent_of (Raises TokenEXPIRED) (answered "ok") (Returns tt))
         "topic" "alice" [])
  = Returns "(Memory unavailable - AWS credentials expired.)".
Proof. vm_compute. reflexivity. Qed.

(** X18. Whenever the function returns, what it returns is the text of
    the model's answer to the prompt built around the memory context and
    the topic, whole and with nothing added: neither the memory nor the
    outcome of storing changes it. *)
Theorem returned_text_is_the_models_answer (knowledge_agent : Agent)
    (timestamp topic user_id : string) (t : list event)
    (output_text : string) :
  fst (knowledge_orchestrator knowledge_agent timestamp topic user_id t)
    = Returns output_text →
  ∃ memory_context response,
    invoke knowledge_agent (orchestrator_prompt memory_context topic) user_id
      = Returns response ∧
    output_text = result_str response ∧
    ModelInvoked (orchestrator_prompt memory_context topic) user_id
    ∈ snd (knowledge_orchestrator knowledge_agent timestamp topic user_id t).
Proof.
  rewrite KnowledgeAgentSpec.knowledge_orchestrator_unfold.
  match goal with
  | |- context [retrieve_memory_context _ _ _ ?t0] =>
      destruct (retrieve_memory_context knowledge_agent topic user_id t0)
        as [[memory_context|e] t']
  end; [|done].
  intros Hout. exists memory_context.
  pose proof (KnowledgeAgentSpec.invoke_orchestrator_invokes knowledge_agent
                timestamp topic user_id memory_context t') as Hin.
  revert Hout Hin.
  unfold invoke_orchestrator, store_summary, try_except, bind, print, emit,
    ret, list_append.
  destruct (invoke knowledge_agent _ user_id) as [response|e]; [|done].
  intros Hout Hin. exists response. split; [reflexivity|]. split; [|exact Hin].
  revert Hout.
  destruct (mem0_store knowledge_agent _ user_id _) as [[]|e];
    [|destruct (is_Exception e);
      [destruct (contains "ExpiredTokenException" (exc_str e)
                 || contains "expired" (lower (exc_str e)))|]];
    cbn [fst]; congruence.
Qed.

Lemma returned_text_with_failing_store :
  ∃ memory_context response,
    invoke (agent_of (Returns None) (answered "the answer") (Raises Timeout))
      (orchestrator_prompt memory_context "topic") "alice"
      = Returns response ∧
    "the answer" = result_str response ∧
    ModelInvoked (orchestrator_prompt memory_context "topic") "alice"
    ∈ snd (knowledge_orchestrator
             (agent_of (Returns None) (answered "the answer") (Raises Timeout))
             "2026-01-01 00:00:00 UTC" "topic" "alice" []).
Proof.
  apply (returned_text_is_the_models_answer
           (agent_of (Returns None) (answered "the answer") (Raises Timeout))
           "2026-01-01 00:00:00 UTC" "topic" "alice" [] "the answer").
  vm_compute. reflexivity.
Defined.

End KnowledgeAgentRuns.

(** ** Properties of the domain assistants *)
Module AssistantsSpec.
Import KnowledgeAgent Assistants Traces Examples.



End AssistantsSpec.

(** ** Properties of the script *)
Module KnowledgeMainSpec.
Import KnowledgeAgent KnowledgeMain Traces Examples.

(** The script up to the start of the first run. *)
Lemma main_unfold (agent_1 check_agent agent_2 : Agent)
    (timestamp_1 timestamp_2 : string) (t : list event) :
  main agent_1 check_agent agent_2 timestamp_1 timestamp_2 t
  = match
      (do response_1 <-
         knowledge_orchestrator agent_1 timestamp_1 topic1 user_id;
       run print (NL +:+ "=== FINAL SYNTHESIS (RUN 1) ===" +:+ NL);
       run print response_1;
       run check_stored check_agent;
       run print (NL +:+ "[RUN 2] Re-running with similar query...");
       do response_2 <-
         knowledge_orchestrator agent_2 timestamp_2 topic2 user_id;
       run print (NL +:+ "=== FINAL SYNTHESIS (RUN 2) ===" +:+ NL);
       print response_2) (t ++ opening)%list
    with
    | (Returns a, t') => (Returns a, t')
    | (Raises e, t') =>
        if is_Exception e then (Returns tt, (t' ++ [error_line e])%list)
        else (Raises e, t')
    end.
Proof.
  unfold main, two_runs, try_except.
  unfold bind at 1 2 3 4. unfold print at 1 2 3 4, emit at 1 2 3 4.
  unfold list_append, opening. cbn [fst snd].
  rewrite <- !app_assoc. cbn [app]. reflexivity.
Qed.

(** X11. Whatever the two runs and the check do, the script never ends by
    an [Exception]: it is caught on line 159 and printed. Only what is not
    an [Exception] leaves the script. *)
Theorem main_lets_no_Exception_out (agent_1 check_agent agent_2 : Agent)
    (timestamp_1 timestamp_2 : string) (t : list event) (e : PyExc) :
  fst (main agent_1 check_agent agent_2 timestamp_1 timestamp_2 t) = Raises e →
  is_Exception e = false.
Proof.
  rewrite main_unfold.
  match goal with
  | |- context [match ?body with _ => _ end] =>
      destruct body as [[a|e'] t']
  end; [done|].
  destruct (is_Exception e') eqn:He; [done|].
  cbn [fst]. by intros [= <-].
Qed.

(** X12. When the first run raises an [Exception], the script prints the
    error line and ends normally, and that is all: the check and the
    second run are not carried out, so neither the checking agent nor the
    agent of the second run is ever called. *)
Theorem failed_first_run_ends_the_script (agent_1 check_agent agent_2 : Agent)
    (timestamp_1 timestamp_2 : string) (t t1 : list event) (e : PyExc) :
  knowledge_orchestrator agent_1 timestamp_1 topic1 user_id (t ++ opening)%list
    = (Raises e, t1) →
  is_Exception e = true →
  main agent_1 check_agent agent_2 timestamp_1 timestamp_2 t
  = (Returns tt, (t1 ++ [error_line e])%list).
Proof.
  intros Hrun He. rewrite main_unfold. unfold bind at 1.
  by rewrite Hrun, He.
Qed.

Lemma print_memories_all_present (memories : list memory) (t : list event) :
  Forall (λ m : memory, is_Some (m !! "memory")) memories →
  print_memories memories t
  = (Returns tt,
     (t ++ map (λ m, Printed ("- " +:+ memory_text m)) memories)%list).
Proof.
  intros Hall. revert t.
  induction Hall as [|m rest [v Hv] _ IH]; intros t; cbn [print_memories map].
  - unfold ret. by rewrite app_nil_r.
  - rewrite Hv. unfold bind, print, emit, list_append. rewrite IH.
    unfold memory_text. rewrite Hv. by rewrite <- app_assoc.
Qed.

Lemma print_memories_one_missing (memories : list memory) (t : list event) :
  Exists (λ m : memory, m !! "memory" = None) memories →
  ∃ shown,
    print_memories memories t
    = (Raises (KeyError "memory"), (t ++ map Printed shown)%list) ∧
    (length shown < length memories)%nat.
Proof.
  revert t. induction memories as [|m rest IH]; intros t Hex;
    [by inversion Hex|].
  cbn [print_memories]. destruct (m !! "memory") as [v|] eqn:Hm.
  - inversion Hex as [? ? Hhere|? ? Hlater]; subst; [congruence|].
    unfold bind, print, emit, list_append.
    destruct (IH (t ++ [Printed ("- " +:+ py_format v)])%list Hlater)
      as (shown & -> & Hlen).
    exists (("- " +:+ py_format v) :: shown). split.
    + by rewrite <- app_assoc.
    + cbn [length]. lia.
  - exists []. split; [unfold raise; by rewrite app_nil_r|cbn; lia].
Qed.

(** X13. The check reports how many memories are stored and shows the
    first three at most, one line ["- {memory}"] each, in order; the
    memories after the third are neither shown nor read, so they need not
    have the ["memory"] field. *)
Theorem check_shows_at_most_three (check_agent : Agent)
    (d : gmap string (list memory)) (results : list memory)
    (t : list event) :
  mem0_retrieve check_agent topic1 user_id = Returns (Some d) →
  d !! "results" = Some results →
  results ≠ [] →
  Forall (λ m : memory, is_Some (m !! "memory")) (take 3 results) →
  check_stored check_agent t
  = (Returns tt,
     (t ++ [Printed (NL +:+ "[CHECK] Retrieving stored session memories...");
            MemoryRetrieve topic1 user_id;
            Printed ("Found " +:+ pretty (length results) +:+
                     " memories stored for 'Ashley_example_user':")]
        ++ map (λ m, Printed ("- " +:+ memory_text m)) (take 3 results))%list).
Proof.
  intros Hr Hd Hne Hall.
  destruct results as [|m rest]; [done|].
  unfold check_stored, bind, print, emit, list_append. rewrite Hr.
  rewrite (KnowledgeAgentRuns.found_results_some d m rest Hd).
  rewrite (print_memories_all_present _ _ Hall).
  by rewrite <- !app_assoc.
Qed.

(** X14. When one of the first three memories shown by the check has no
    ["memory"] field, the [KeyError] ends the script: it prints the
    memories before that one and the error line quoting the key, and ends
    normally without the second run, whose agent is never called. *)
Theorem malformed_memory_in_check_ends_the_script
    (agent_1 check_agent agent_2 : Agent) (timestamp_1 timestamp_2 : string)
    (response_1 : string) (d : gmap string (list memory))
    (results : list memory) (t t1 : list event) :
  knowledge_orchestrator agent_1 timestamp_1 topic1 user_id (t ++ opening)%list
    = (Returns response_1, t1) →
  mem0_retrieve check_agent topic1 user_id = Returns (Some d) →
  d !! "results" = Some results →
  Exists (λ m : memory, m !! "memory" = None) (take 3 results) →
  ∃ shown,
    (length shown < 3)%nat ∧
    main agent_1 check_agent agent_2 timestamp_1 timestamp_2 t
    = (Returns tt,
       (t1 ++ [Printed (NL +:+ "=== FINAL SYNTHESIS (RUN 1) ===" +:+ NL);
               Printed response_1;
               Printed (NL +:+ "[CHECK] Retrieving stored session memories...");
               MemoryRetrieve topic1 user_id;
               Printed ("Found " +:+ pretty (length results) +:+
                        " memories stored for 'Ashley_example_user':")]
           ++ map Printed shown
           ++ [error_line (KeyError "memory")])%list).
Proof.
  intros Hrun Hr Hd Hex.
  destruct results as [|m rest]; [by inversion Hex|].
  rewrite main_unfold. unfold bind at 1. rewrite Hrun.
  unfold bind at 1 2 3. unfold print at 1 2, emit at 1 2, list_append.
  unfold check_stored, bind at 1 2. unfold print at 1, emit at 1 2, list_append.
  rewrite Hr, (KnowledgeAgentRuns.found_results_some d m rest Hd).
  unfold bind at 1. unfold print at 1, emit at 1, list_append.
  match goal with
  | |- context [print_memories _ ?t0] =>
      destruct (print_memories_one_missing (take 3 (m :: rest)) t0 Hex)
        as (shown & -> & Hlen)
  end.
  exists shown. split.
  - assert (length (take 3 (m :: rest)) ≤ 3)%nat by (rewrite length_take; lia).
    lia.
  - cbn [is_Exception KeyError]. by rewrite <- !app_assoc.
Qed.

(** *** The theorems at concrete agents *)
Import AgentExamples.

Lemma interrupt_leaves_the_script :
  is_Exception Interrupt = false.
Proof.
  apply (main_lets_no_Exception_out
           (agent_of (Raises Interrupt) (answered "ok") (Returns tt))
           (agent_of (Returns None) (answered "ok") (Returns tt))
           (agent_of (Returns None) (answered "ok") (Returns tt))
           "2026-01-01 00:00:00 UTC" "2026-01-01 00:01:00 UTC" [] Interrupt).
  vm_compute. reflexivity.
Defined.

Lemma model_timeout_ends_the_script :
  main (agent_of (Returns None) (Raises Timeout) (Returns tt))
       (agent_of (Returns (with_results two_memories)) (answered "ok") (Returns tt))
       (agent_of (Returns None) (answered "ok") (Returns tt))
       "2026-01-01 00:00:00 UTC" "2026-01-01 00:01:00 UTC" []
  = (Returns tt,
     (snd (knowledge_orchestrator
             (agent_of (Returns None) (Raises Timeout) (Returns tt))
             "2026-01-01 00:00:00 UTC" topic1 user_id ([] ++ opening)%list)
      ++ [error_line Timeout])%list).
Proof.
  apply (failed_first_run_ends_the_script
           (agent_of (Returns None) (Raises Timeout) (Returns tt))
           (agent_of (Returns (with_results two_memories)) (answered "ok")
              (Returns tt))
           (agent_of (Returns None) (answered "ok") (Returns tt))
           "2026-01-01 00:00:00 UTC" "2026-01-01 00:01:00 UTC" []).
  - vm_compute. reflexivity.
  - reflexivity.
Defined.

Lemma check_shows_three_of_four :
  check_stored
    (agent_of (Returns (with_results four_memories)) (answered "ok") (Returns tt))
    []
  = (Returns tt,
     ([] ++ [Printed (NL +:+ "[CHECK] Retrieving stored session memories...");
             MemoryRetrieve topic1 user_id;
             Printed ("Found " +:+ pretty (length four_memories) +:+
                      " memories stored for 'Ashley_example_user':")]
         ++ map (λ m, Printed ("- " +:+ memory_text m))
              (take 3 four_memories))%list).
Proof.
  apply (check_shows_at_most_three
           (agent_of (Returns (with_results four_memories)) (answered "ok")
              (Returns tt))
           {[ "results" := four_memories ]} four_memories []).
  - reflexivity.
  - vm_compute. reflexivity.
  - discriminate.
  - repeat constructor; vm_compute; by eexists.
Defined.

Lemma broken_memory_in_check_ends_the_script :
  ∃ shown,
    (length shown < 3)%nat ∧
    main (agent_of (Returns None) (answered "first") (Returns tt))
         (agent_of (Returns (with_results broken_memories)) (answered "ok")
            (Returns tt))
         (agent_of (Returns None) (answered "second") (Returns tt))
         "2026-01-01 00:00:00 UTC" "2026-01-01 00:01:00 UTC" []
    = (Returns tt,
       (snd (knowledge_orchestrator
               (agent_of (Returns None) (answered "first") (Returns tt))
               "2026-01-01 00:00:00 UTC" topic1 user_id ([] ++ opening)%list)
        ++ [Printed (NL +:+ "=== FINAL SYNTHESIS (RUN 1) ===" +:+ NL);
            Printed "first";
            Printed (NL +:+ "[CHECK] Retrieving stored session memories...");
            MemoryRetrieve topic1 user_id;
            Printed ("Found " +:+ pretty (length broken_memories) +:+
                     " memories stored for 'Ashley_example_user':")]
        ++ map Printed shown
        ++ [error_line (KeyError "memory")])%list).
Proof.
  apply (malformed_memory_in_check_ends_the_script
           (agent_of (Returns None) (answered "first") (Returns tt))
           (agent_of (Returns (with_results broken_memories)) (answered "ok")
              (Returns tt))
           (agent_of (Returns None) (answered "second") (Returns tt))
           "2026-01-01 00:00:00 UTC" "2026-01-01 00:01:00 UTC"
           "first" {[ "results" := broken_memories ]} broken_memories []).
  - vm_compute. reflexivity.
  - reflexivity.
  - vm_compute. reflexivity.
  - apply Exists_cons_tl, Exists_cons_hd. vm_compute. reflexivity.
Defined.

End KnowledgeMainSpec.

(** ** Further properties of the dynamic system prompt *)
Module ContextMiddlewareRuns.
Import ContextMiddleware Traces Examples.

Section Resolver.
Context {S : Type} `{BaseStore S}.

Local Abbreviation World := (@World S).

(** X15. Every call, whether it returns or raises, asks the store exactly
    once, in the namespace [("preferences",)] and under the caller's own
    id: it reads no other caller's record and makes no second attempt. *)
Theorem one_lookup_under_own_id (w : World) :
  store_calls (snd (context_aware_prompt w))
  = (store_calls w ++ [(["preferences"], caller_id w)])%list.
Proof.
  rewrite ContextMiddlewareSpec.context_aware_prompt_run.
  by destruct (preference_lookup w).
Qed.

(** X16. A call that returns prints, in this order and nothing else: the
    entry line with the caller and the message count; the long-conversation
    notice if and only if there are more than 10 messages; one line saying
    which style was applied or that no preferences were found; and the
    final prompt, which is the very string it returns. *)
Theorem trace_of_a_returning_call (w : World) user_prefs :
  preference_lookup w = Returns user_prefs →
  ∃ final_prompt,
    fst (context_aware_prompt w) = Returns final_prompt ∧
    stdout (snd (context_aware_prompt w))
    = (stdout w
       ++ [" Context Middleware: user_id=" +:+ caller_id w +:+
           ", messages=" +:+ pretty (message_count w)]
       ++ (if (10 <? message_count w)%nat
           then [" State Context: Long conversation detected"] else [])
       ++ [match user_prefs with
           | Some item =>
               if item_bool item
               then "Store Context: Applied " +:+ style_of item +:+ " preference"
               else "Store Context: No user preferences found"
           | None => "Store Context: No user preferences found"
           end]
       ++ ["Final prompt: " +:+ final_prompt])%list.
Proof.
  intros Hl. rewrite ContextMiddlewareSpec.context_aware_prompt_run, Hl.
  eexists. split; reflexivity.
Qed.

(** *** The prompt read line by line *)

Lemma split_lines_one_line (s : string) :
  one_line s = true → split_lines s = [s].
Proof.
  induction s as [|c s IH]; [reflexivity|]. cbn [one_line split_lines].
  destruct (Ascii.eqb c nl_char); [done|]. cbn [negb andb].
  intros Hs. by rewrite (IH Hs).
Qed.

Lemma split_lines_app (s rest : string) :
  one_line s = true →
  split_lines (s +:+ NL +:+ rest) = s :: split_lines rest.
Proof.
  induction s as [|c s IH]; [reflexivity|].
  change (String c s +:+ NL +:+ rest) with (String c (s +:+ NL +:+ rest)).
  cbn [one_line split_lines].
  destruct (Ascii.eqb c nl_char); [done|]. cbn [negb andb].
  intros Hs. by rewrite (IH Hs).
Qed.

Lemma split_lines_join (parts : list string) :
  parts ≠ [] →
  forallb one_line parts = true →
  split_lines (join NL parts) = parts.
Proof.
  induction parts as [|s parts IH]; [done|]. intros _ Hall.
  cbn [forallb] in Hall. apply andb_true_iff in Hall as [Hs Hrest].
  destruct parts as [|s' parts]; [by apply split_lines_one_line|].
  change (join NL (s :: s' :: parts)) with (s +:+ NL +:+ join NL (s' :: parts)).
  rewrite (split_lines_app _ _ Hs). f_equal. by apply IH.
Qed.

Lemma one_line_app (a b : string) :
  one_line (a +:+ b) = one_line a && one_line b.
Proof.
  induction a as [|c a IH]; [reflexivity|].
  change (String c a +:+ b) with (String c (a +:+ b)).
  cbn [one_line]. rewrite IH. by rewrite andb_assoc.
Qed.

(** X17. When the stored style holds no newline, splitting the returned
    prompt at its newlines gives back the collected segments, one per line
    and in the same order: no line is empty, none is split, none is
    merged. *)
Theorem lines_of_prompt_are_the_segments (w : World) user_prefs :
  preference_lookup w = Returns user_prefs →
  (∀ item, user_prefs = Some item → one_line (style_of item) = true) →
  ∃ parts final_prompt,
    fst (collect_prompt_parts w) = Returns parts ∧
    fst (context_aware_prompt w) = Returns final_prompt ∧
    split_lines final_prompt = parts.
Proof.
  intros Hl Hstyle. eexists _, _.
  split; [by apply ContextMiddlewareSpec.collect_prompt_parts_returns|].
  split; [by apply ContextMiddlewareSpec.context_aware_prompt_returns|].
  apply split_lines_join; [done|].
  unfold spec_segments, long_part.
  rewrite !forallb_app.
  destruct (10 <? message_count w)%nat; cbn [forallb andb];
    destruct user_prefs as [item|]; cbn [style_part]; try reflexivity;
    destruct (item_bool item); cbn [forallb]; try reflexivity;
    unfold style_segment; rewrite !one_line_app, (Hstyle item eq_refl);
    reflexivity.
Qed.

End Resolver.

Lemma lines_of_prompt_scenario_D :
  ∃ parts final_prompt,
    fst (collect_prompt_parts scenario_D) = Returns parts ∧
    fst (context_aware_prompt scenario_D) = Returns final_prompt ∧
    split_lines final_prompt = parts.
Proof.
  apply (lines_of_prompt_are_the_segments scenario_D (Some no_style_field)).
  - vm_compute. reflexivity.
  - intros item Hitem. inversion Hitem. vm_compute. reflexivity.
Defined.

Lemma trace_of_scenario_C :
  ∃ final_prompt,
    fst (context_aware_prompt scenario_C) = Returns final_prompt ∧
    stdout (snd (context_aware_prompt scenario_C))
    = (stdout scenario_C
       ++ [" Context Middleware: user_id=" +:+ caller_id scenario_C +:+
           ", messages=" +:+ pretty (message_count scenario_C)]
       ++ (if (10 <? message_count scenario_C)%nat
           then [" State Context: Long conversation detected"] else [])
       ++ [match Some (prefers "formal") with
           | Some item =>
               if item_bool item
               then "Store Context: Applied " +:+ style_of item +:+ " preference"
               else "Store Context: No user preferences found"
           | None => "Store Context: No user preferences found"
           end]
       ++ ["Final prompt: " +:+ final_prompt])%list.
Proof.
  apply (trace_of_a_returning_call scenario_C (Some (prefers "formal"))).
  vm_compute. reflexivity.
Defined.

End ContextMiddlewareRuns.
